(** * Daily Diet API: the meals routes

    A shallow embedding of [mealsRoutes] (the Fastify plugin that serves
    [/meals]) and of the [meals] table it queries through knex, followed by
    the properties of the metrics computation, of the per-caller scoping of
    every query, and of the order in which each handler validates, reads and
    writes. *)

From Stdlib Require Import List String Ascii Bool Arith ZArith QArith Qabs Lia.
From Stdlib Require Import Permutation Sorted.
Import ListNotations.

Local Close Scope Q_scope.
Local Open Scope string_scope.
Local Open Scope list_scope.
Local Open Scope nat_scope.

(** ** The [meals] table *)

(** One row of [Tables.meals].  [description] is declared [string] but the
    insert of [POST /] passes [undefined] when the body has none, which the
    store keeps as NULL: hence the option.  [on_diet] is read back only
    through its truthiness. *)
Record Meal : Type := mkMeal {
  id : string;
  user_id : string;
  name : string;
  description : option string;
  date_time : string;
  on_diet : bool;
  created_at : string
}.

(** ** Metrics ([GET /metrics]) *)

Module Metrics.

(** [meals.reduce((total, meal) => (meal.on_diet ? ++total : total), 0)] *)
Definition onDietMeals (meals : list Meal) : nat :=
  fold_left (fun total meal => if on_diet meal then S total else total) meals 0.

(** [meals.reduce((total, meal) => (!meal.on_diet ? ++total : total), 0)] *)
Definition offDietMeals (meals : list Meal) : nat :=
  fold_left (fun total meal => if negb (on_diet meal) then S total else total)
            meals 0.

(** The two mutable locals of the [forEach] loop. *)
Record streak : Type := mkStreak {
  bestSequence : nat;
  bestSequenceSoFar : nat
}.

(** The body of the [forEach] callback: first the running counter is bumped
    or reset, then the maximum is raised when the counter exceeds it. *)
Definition visit (st : streak) (meal : Meal) : streak :=
  let soFar := if on_diet meal then S (bestSequenceSoFar st) else 0 in
  {| bestSequence := if bestSequence st <? soFar then soFar else bestSequence st;
     bestSequenceSoFar := soFar |}.

Definition scan (meals : list Meal) : streak :=
  fold_left visit meals {| bestSequence := 0; bestSequenceSoFar := 0 |}.

(** The [metrics] object of the response. *)
Record metrics : Type := mkMetrics {
  recorded_meals : nat;
  on_diet_meals : nat;
  off_diet_meals : nat;
  best_sequence : nat
}.

Definition compute (meals : list Meal) : metrics :=
  {| recorded_meals := List.length meals;
     on_diet_meals := onDietMeals meals;
     off_diet_meals := offDietMeals meals;
     best_sequence := bestSequence (scan meals) |}.

(** *** What the specification asks of the four numbers *)

(** A run is a block of consecutive meals, all on diet. *)
Definition is_run_of (meals run : list Meal) : Prop :=
  (exists before after, meals = before ++ run ++ after) /\
  Forall (fun m => on_diet m = true) run.

(** [n] is the length of the longest run of [meals]. *)
Definition longest_run (meals : list Meal) (n : nat) : Prop :=
  (exists run, is_run_of meals run /\ List.length run = n) /\
  (forall run, is_run_of meals run -> List.length run <= n).

(** The number of meals whose flag is [b]. *)
Definition count_flag (b : bool) (meals : list Meal) : nat :=
  List.length (filter (fun m => Bool.eqb (on_diet m) b) meals).

(** A run that ends the list. *)
Definition is_tail_run (meals run : list Meal) : Prop :=
  (exists before, meals = before ++ run) /\
  Forall (fun m => on_diet m = true) run.

(** [n] is the length of the longest run that ends the list: what the
    running counter of the loop holds. *)
Definition current_run (meals : list Meal) (n : nat) : Prop :=
  (exists run, is_tail_run meals run /\ List.length run = n) /\
  (forall run, is_tail_run meals run -> List.length run <= n).

End Metrics.

(** ** Request bodies and the zod schemas *)

(** A value of a parsed JSON body, as far as the schemas can tell values
    apart: by [typeof], and for [z.coerce.date()] by what [new Date(v)] makes
    of it.  A number carries its numeric value; an array or an object is seen
    only through [ToPrimitive]: the string it turns into, or [None] when the
    conversion throws, as it does for an object with an own [toString]
    property (which in a JSON body is never a function) and for an array
    that holds one. *)
Inductive json : Type :=
| JNull
| JBool (b : bool)
| JNum (q : Q)
| JStr (s : string)
| JComposite (primitive : option string).

(** [request.body]: an object with its own properties, or anything else
    (no body, a string, an array, ...), which [z.object] refuses. *)
Inductive Body : Type :=
| NotAnObject
| Object (fields : list (string * json)).

(** [body[k]]; [None] is [undefined]. *)
Fixpoint property (k : string) (fields : list (string * json)) : option json :=
  match fields with
  | [] => None
  | (k', v) :: rest => if String.eqb k k' then Some v else property k rest
  end.

(** The property [k] of a request body; a body that is no object has
    none. *)
Definition body_property (k : string) (body : Body) : option json :=
  match body with
  | NotAnObject => None
  | Object fields => property k fields
  end.

(** The two inputs a handler validates. *)
Inductive Input : Type :=
| Params                (* [request.params] *)
| RequestBody.          (* [request.body] *)

(** What a handler can throw or be stopped with. *)
Inductive failure : Type :=
| Unauthorized          (* the preHandler stopped the request *)
| ZodError (i : Input)  (* [schema.parse(i)] threw its list of issues *)
| TypeError             (* [new Date(v)] threw inside [schema.parse] *)
| NotFound              (* [throw new Error('Not Found')] *)
| EmptyUpdate.          (* knex refuses an update that sets no column *)

Module Zod.

(** [z.string()] *)
Definition string_ (v : option json) : option string :=
  match v with
  | Some (JStr s) => Some s
  | _ => None
  end.

(** [z.boolean()] *)
Definition boolean (v : option json) : option bool :=
  match v with
  | Some (JBool b) => Some b
  | _ => None
  end.

(** [schema.optional()]: [undefined] passes as [undefined], anything else
    goes to the inner schema. *)
Definition optional {A : Type} (inner : option json -> option A)
    (v : option json) : option (option A) :=
  match v with
  | None => Some None
  | Some _ => option_map Some (inner v)
  end.

Definition is_hex (c : ascii) : bool :=
  let n := nat_of_ascii c in
  ((48 <=? n) && (n <=? 57)) || ((97 <=? n) && (n <=? 102))
  || ((65 <=? n) && (n <=? 70)).

(** Reads [n] hexadecimal digits off the front of [s]. *)
Fixpoint hex_block (n : nat) (s : string) : option string :=
  match n with
  | O => Some s
  | S n' =>
      match s with
      | String c rest => if is_hex c then hex_block n' rest else None
      | EmptyString => None
      end
  end.

(** Reads the ["-"] that separates two blocks. *)
Definition dash (s : string) : option string :=
  match s with
  | String "-" rest => Some rest
  | _ => None
  end.

Definition and_then {A B : Type} (x : option A) (f : A -> option B) : option B :=
  match x with
  | Some a => f a
  | None => None
  end.

(** [z.string().uuid()] on a route parameter: the 8-4-4-4-12 shape of
    hexadecimal digits, in either case. *)
Definition uuid (s : string) : bool :=
  match
    and_then (hex_block 8 s) (fun s1 =>
    and_then (dash s1) (fun s2 =>
    and_then (hex_block 4 s2) (fun s3 =>
    and_then (dash s3) (fun s4 =>
    and_then (hex_block 4 s4) (fun s5 =>
    and_then (dash s5) (fun s6 =>
    and_then (hex_block 4 s6) (fun s7 =>
    and_then (dash s7) (fun s8 =>
    hex_block 12 s8))))))))
  with
  | Some EmptyString => true
  | _ => false
  end.

End Zod.

(** ** Dates *)

(** What the program takes from its host: the parser behind [new Date(s)],
    the local time zone that [String(date)] prints in, and the generator
    behind [randomUUID()], read as the sequence of its results. *)
Record Host : Type := mkHost {
  Date_parse : string -> option Z;   (* [None] is NaN *)
  LocalTZA : Z -> Z;                 (* offset of local time, in ms *)
  tzName : Z -> string;              (* the " (Zone Name)" suffix *)
  randomUUID_at : nat -> string
}.

Module JSDate.

Local Open Scope Z_scope.

Definition msPerDay : Z := 86400000.

(** [TimeClip] of a number: a time value is an integral number of
    milliseconds, at most 8.64e15 either side of the epoch. *)
Definition TimeClip (q : Q) : option Z :=
  if Qle_bool (Qabs q) (inject_Z 8640000000000000)
  then Some (Z.quot (Qnum q) (Zpos (Qden q)))
  else None.

(** [new Date(v)] throws a [TypeError]: [v] is an array or an object that
    [ToPrimitive] cannot convert. *)
Definition throws (v : option json) : bool :=
  match v with
  | Some (JComposite None) => true
  | _ => false
  end.

(** The time value of the valid date [new Date(v)] makes of a body value
    [v]; [None] when the date is invalid, and when there is no date because
    the construction [throws].  [undefined] gives NaN, [null] and booleans
    go through [ToNumber], strings and the primitive of arrays and objects
    through [Date.parse]. *)
Definition construct (h : Host) (v : option json) : option Z :=
  match v with
  | None => None
  | Some JNull => Some 0
  | Some (JBool b) => Some (if b then 1 else 0)
  | Some (JNum q) => TimeClip q
  | Some (JStr s) => Date_parse h s
  | Some (JComposite (Some s)) => Date_parse h s
  | Some (JComposite None) => None
  end.

Definition Day (t : Z) : Z := t / msPerDay.
Definition WeekDay (t : Z) : Z := (Day t + 4) mod 7.
Definition HourFromTime (t : Z) : Z := (t / 3600000) mod 24.
Definition MinFromTime (t : Z) : Z := (t / 60000) mod 60.
Definition SecFromTime (t : Z) : Z := (t / 1000) mod 60.

(** Year, month (0-11) and day of the month (1-31) of a day number in the
    proleptic Gregorian calendar, by 400-year eras counted from March. *)
Definition civil (day : Z) : Z * Z * Z :=
  let z := day + 719468 in
  let era := z / 146097 in
  let doe := z - era * 146097 in
  let yoe := (doe - doe / 1460 + doe / 36524 - doe / 146096) / 365 in
  let doy := doe - (365 * yoe + yoe / 4 - yoe / 100) in
  let mp := (5 * doy + 2) / 153 in
  let d := doy - (153 * mp + 2) / 5 + 1 in
  let m := if mp <? 10 then mp + 2 else mp - 10 in
  let y := yoe + era * 400 + (if m <=? 1 then 1 else 0) in
  (y, m, d).

Definition YearFromTime (t : Z) : Z := fst (fst (civil (Day t))).
Definition MonthFromTime (t : Z) : Z := snd (fst (civil (Day t))).
Definition DateFromTime (t : Z) : Z := snd (civil (Day t)).

Definition digit (d : Z) : ascii := ascii_of_N (48 + Z.to_N d).

Definition pad2 (n : Z) : string :=
  String (digit (n / 10 mod 10)) (String (digit (n mod 10)) "").

(** The decimal digits of [n >= 0], most significant first. *)
Fixpoint decimal (fuel : nat) (n : Z) (acc : string) : string :=
  match fuel with
  | O => acc
  | S fuel' =>
      let acc' := String (digit (n mod 10)) acc in
      if n / 10 =? 0 then acc' else decimal fuel' (n / 10) acc'
  end.

Fixpoint zeros (n : nat) : string :=
  match n with
  | O => ""
  | S n' => String "0" (zeros n')
  end.

(** [ToZeroPaddedDecimalString(n, 4)] *)
Definition pad4 (n : Z) : string :=
  let s := decimal 20 n "" in
  String.append (zeros (4 - String.length s)) s.

Definition weekday_name (d : Z) : string :=
  nth (Z.to_nat d) ["Sun"; "Mon"; "Tue"; "Wed"; "Thu"; "Fri"; "Sat"] "".

Definition month_name (m : Z) : string :=
  nth (Z.to_nat m)
      ["Jan"; "Feb"; "Mar"; "Apr"; "May"; "Jun";
       "Jul"; "Aug"; "Sep"; "Oct"; "Nov"; "Dec"] "".

Definition DateString (t : Z) : string :=
  let y := YearFromTime t in
  String.concat ""
    [weekday_name (WeekDay t); " "; month_name (MonthFromTime t); " ";
     pad2 (DateFromTime t); " "; (if y <? 0 then "-" else ""); pad4 (Z.abs y)].

Definition TimeString (t : Z) : string :=
  String.concat ""
    [pad2 (HourFromTime t); ":"; pad2 (MinFromTime t); ":";
     pad2 (SecFromTime t); " GMT"].

Definition TimeZoneString (h : Host) (tv : Z) : string :=
  let offset := LocalTZA h tv in
  String.concat ""
    [(if offset <? 0 then "-" else "+");
     pad2 (HourFromTime (Z.abs offset)); pad2 (MinFromTime (Z.abs offset));
     tzName h tv].

(** [String(date)], that is [Date.prototype.toString]: the date and the time
    in local time, then the zone. *)
Definition toString (h : Host) (tv : Z) : string :=
  let t := tv + LocalTZA h tv in
  String.concat "" [DateString t; " "; TimeString t; TimeZoneString h tv].

End JSDate.

(** [z.coerce.date()]: the value goes through [new Date], and an invalid
    date is refused; [None] also when [new Date] throws, which ends the
    whole [parse] (see [parse_failure]). *)
Definition Zod_coerce_date (h : Host) (v : option json) : option Z :=
  JSDate.construct h v.

(** What [schema.parse(request.body)] throws when it returns no value, for
    the body schemas of [POST /] and [PUT /:id].  A body that is no object
    is refused before any property is looked at.  For an object every
    property is parsed in turn and the issues are thrown together at the
    end, as one [ZodError]; but [z.coerce.date()] calls [new Date] on the
    [dateTime] it is given, and when that throws, the [TypeError] leaves
    [parse] at once, whatever the other properties are. *)
Definition parse_failure (body : Body) : failure :=
  if JSDate.throws (body_property "dateTime" body)
  then TypeError
  else ZodError RequestBody.

(** A host in the UTC zone whose generator counts: its [n]-th identifier
    ends in the hexadecimal digits of [n]. *)
Module UTCHost.

Definition hex_digit (n : nat) : ascii :=
  match String.get (n mod 16) "0123456789abcdef" with
  | Some c => c
  | None => "0"%char
  end.

Fixpoint hex_digits (width n : nat) (acc : string) : string :=
  match width with
  | O => acc
  | S w => hex_digits w (n / 16) (String (hex_digit n) acc)
  end.

Definition uuid_of (n : nat) : string :=
  String.append "00000000-0000-4000-8000-" (hex_digits 12 n "").

(** Its [Date.parse] accepts no string: the examples give their dates as
    numbers of milliseconds. *)
Definition host : Host :=
  {| Date_parse := fun _ => None;
     LocalTZA := fun _ => 0%Z;
     tzName := fun _ => " (Coordinated Universal Time)";
     randomUUID_at := uuid_of |}.

End UTCHost.

(** ** The store, as knex is used on it *)

Module Knex.

(** [.where({ user_id: userId })] *)
Definition where_user (userId : string) (rows : list Meal) : list Meal :=
  filter (fun m => String.eqb (user_id m) userId) rows.

(** The row test of [.where({ id, user_id: userId })]. *)
Definition selected (mealId userId : string) (m : Meal) : bool :=
  String.eqb (id m) mealId && String.eqb (user_id m) userId.

Definition where_id_user (mealId userId : string) (rows : list Meal)
    : list Meal :=
  filter (selected mealId userId) rows.

(** [.first()]; [None] is [undefined]. *)
Definition first (rows : list Meal) : option Meal := hd_error rows.

(** [.orderBy('date_time', 'desc')].  The column is the [string] of
    [Tables.meals] and holds what [String(dateTime)] printed, so rows
    compare as their texts do, byte by byte; rows with equal text keep the
    order of the table. *)
Fixpoint place (m : Meal) (sorted : list Meal) : list Meal :=
  match sorted with
  | [] => [m]
  | x :: rest =>
      if String.leb (date_time x) (date_time m)
      then m :: x :: rest
      else x :: place m rest
  end.

Fixpoint orderBy_date_time_desc (rows : list Meal) : list Meal :=
  match rows with
  | [] => []
  | m :: rest => place m (orderBy_date_time_desc rest)
  end.

(** [.insert(row)] *)
Definition insert (row : Meal) (rows : list Meal) : list Meal :=
  rows ++ [row].

(** The object given to [.update]: a column whose value is [undefined] is
    left out of the statement. *)
Record changes : Type := mkChanges {
  set_name : option string;
  set_description : option string;
  set_date_time : option string;
  set_on_diet : option bool
}.

Definition or_keep {A : Type} (new : option A) (old : A) : A :=
  match new with
  | Some v => v
  | None => old
  end.

Definition rewrite_row (c : changes) (m : Meal) : Meal :=
  {| id := id m;
     user_id := user_id m;
     name := or_keep (set_name c) (name m);
     description :=
       match set_description c with
       | Some d => Some d
       | None => description m
       end;
     date_time := or_keep (set_date_time c) (date_time m);
     on_diet := or_keep (set_on_diet c) (on_diet m);
     created_at := created_at m |}.

Definition sets_nothing (c : changes) : bool :=
  match set_name c, set_description c, set_date_time c, set_on_diet c with
  | None, None, None, None => true
  | _, _, _, _ => false
  end.

(** [.where({ id, user_id }).update(c)]: every selected row is rewritten;
    an update that sets no column throws before it reaches the table. *)
Definition update (mealId userId : string) (c : changes) (rows : list Meal)
    : failure + list Meal :=
  if sets_nothing c then inl EmptyUpdate
  else inr (map (fun m => if selected mealId userId m
                          then rewrite_row c m else m) rows).

(** [.where({ id, user_id }).del()] *)
Definition del (mealId userId : string) (rows : list Meal) : list Meal :=
  filter (fun m => negb (selected mealId userId m)) rows.

End Knex.

(** ** Requests, replies and the state between requests *)

(** The table, and how many identifiers [randomUUID] has handed out. *)
Record World : Type := mkWorld {
  meals : list Meal;
  draws : nat
}.

Definition randomUUID (h : Host) (w : World) : string * World :=
  (randomUUID_at h (draws w), {| meals := meals w; draws := S (draws w) |}).

Inductive Route : Type :=
| GetMeals                                   (* GET / *)
| GetMeal (mealId : string)                  (* GET /:id *)
| GetMetrics                                 (* GET /metrics *)
| PostMeal (body : Body)                     (* POST / *)
| PutMeal (mealId : string) (body : Body)    (* PUT /:id *)
| DeleteMeal (mealId : string).              (* DELETE /:id *)

(** A request: its [userId] cookie if it has one, the route with its
    parameter and body, and the time the store's clock shows while the
    request is served.  The insert of [POST /] gives no [created_at]: the
    column is assigned by the store, from that clock (its migration is not
    among the sources). *)
Record Request : Type := mkRequest {
  cookies_userId : option string;
  route : Route;
  db_now : string
}.

Inductive payload : Type :=
| NoPayload
| MealsPayload (rows : list Meal)            (* [{ meals }] *)
| MealPayload (row : option Meal)            (* [{ meal }] *)
| MetricsPayload (m : Metrics.metrics).      (* [{ metrics }] *)

Inductive outcome : Type :=
| Sent (status : nat) (p : payload)
| Failed (f : failure).

(** The arguments of [reply.cookie(name, value, { path, maxAge })]. *)
Record Cookie : Type := mkCookie {
  cookie_name : string;
  cookie_value : string;
  cookie_path : string;
  maxAge : Z
}.

Record Reply : Type := mkReply {
  result : outcome;
  set_cookie : option Cookie
}.

Definition send (status : nat) (p : payload) : Reply :=
  {| result := Sent status p; set_cookie := None |}.

Definition fail (f : failure) : Reply :=
  {| result := Failed f; set_cookie := None |}.

(** ** The handlers *)

(** Modelled from the spec: [checkUserIdExists], the preHandler of every
    route but [POST /], lives in [middlewares/check-user-id-exists], which
    is not among the sources.  It takes the request's identity token; when
    the token is absent the request stops with [Unauthorized] and no handler
    runs; a token that is present goes through unchanged, whatever it is. *)
Definition checkUserIdExists (cookie : option string)
    (handler : string -> World -> Reply * World) (w : World) : Reply * World :=
  match cookie with
  | None => (fail Unauthorized, w)
  | Some userId => handler userId w
  end.

(** [getMealParamsSchema.parse(request.params)] *)
Definition getMealParamsSchema (mealId : string) : option string :=
  if Zod.uuid mealId then Some mealId else None.

(** The query shared by [GET /] and [GET /metrics]. *)
Definition select_meals (userId : string) (w : World) : list Meal :=
  Knex.orderBy_date_time_desc (Knex.where_user userId (meals w)).

(** The pre-check read shared by [GET /:id], [PUT /:id] and [DELETE /:id]. *)
Definition find_meal (mealId userId : string) (w : World) : option Meal :=
  Knex.first (Knex.where_id_user mealId userId (meals w)).

Definition get_meals (userId : string) (w : World) : Reply * World :=
  (send 200 (MealsPayload (select_meals userId w)), w).

Definition get_meal (mealId userId : string) (w : World) : Reply * World :=
  match getMealParamsSchema mealId with
  | None => (fail (ZodError Params), w)
  | Some mealId => (send 200 (MealPayload (find_meal mealId userId w)), w)
  end.

Definition get_metrics (userId : string) (w : World) : Reply * World :=
  (send 200 (MetricsPayload (Metrics.compute (select_meals userId w))), w).

(** The parsed body of [POST /]. *)
Record createMealBody : Type := mkCreateMealBody {
  create_name : string;
  create_description : option string;
  create_dateTime : Z;
  create_onDiet : bool
}.

(** [createMealBodySchema.parse(request.body)]: the parsed body, or [None]
    when [parse] throws [parse_failure body]. *)
Definition createMealBodySchema (h : Host) (body : Body)
    : option createMealBody :=
  match body with
  | NotAnObject => None
  | Object fields =>
      match Zod.string_ (property "name" fields),
            Zod.optional Zod.string_ (property "description" fields),
            Zod_coerce_date h (property "dateTime" fields),
            Zod.boolean (property "onDiet" fields) with
      | Some n, Some d, Some t, Some o =>
          Some {| create_name := n; create_description := d;
                  create_dateTime := t; create_onDiet := o |}
      | _, _, _, _ => None
      end
  end.

(** [!userId] *)
Definition falsy (userId : option string) : bool :=
  match userId with
  | None => true
  | Some "" => true
  | Some _ => false
  end.

(** [1000 * 60 * 60 * 24 * 7] *)
Definition cookie_maxAge : Z := 1000 * 60 * 60 * 24 * 7.

Definition post_meal (h : Host) (req : Request) (body : Body) (w : World)
    : Reply * World :=
  match createMealBodySchema h body with
  | None => (fail (parse_failure body), w)
  | Some b =>
      let '(userId, cookie, w1) :=
        if falsy (cookies_userId req)
        then let '(fresh, w') := randomUUID h w in
             (fresh,
              Some {| cookie_name := "userId"; cookie_value := fresh;
                      cookie_path := "/"; maxAge := cookie_maxAge |},
              w')
        else (match cookies_userId req with Some u => u | None => "" end,
              None, w) in
      let '(mealId, w2) := randomUUID h w1 in
      let row :=
        {| id := mealId;
           user_id := userId;
           name := create_name b;
           description := create_description b;
           date_time := JSDate.toString h (create_dateTime b);
           on_diet := create_onDiet b;
           created_at := db_now req |} in
      ({| result := Sent 201 NoPayload; set_cookie := cookie |},
       {| meals := Knex.insert row (meals w2); draws := draws w2 |})
  end.

(** The parsed body of [PUT /:id], already in the shape given to
    [.update]: [dateTime ? String(dateTime) : undefined] keeps a date, which
    is an object and so never falsy.  [None] when [parse] throws
    [parse_failure body]. *)
Definition updateMealBodySchema (h : Host) (body : Body)
    : option Knex.changes :=
  match body with
  | NotAnObject => None
  | Object fields =>
      match Zod.optional Zod.string_ (property "name" fields),
            Zod.optional Zod.string_ (property "description" fields),
            Zod.optional (Zod_coerce_date h) (property "dateTime" fields),
            Zod.optional Zod.boolean (property "onDiet" fields) with
      | Some n, Some d, Some t, Some o =>
          Some {| Knex.set_name := n;
                  Knex.set_description := d;
                  Knex.set_date_time := option_map (JSDate.toString h) t;
                  Knex.set_on_diet := o |}
      | _, _, _, _ => None
      end
  end.

Definition put_meal (h : Host) (mealId : string) (body : Body)
    (userId : string) (w : World) : Reply * World :=
  match getMealParamsSchema mealId with
  | None => (fail (ZodError Params), w)
  | Some mealId =>
      match find_meal mealId userId w with
      | None => (fail NotFound, w)
      | Some _ =>
          match updateMealBodySchema h body with
          | None => (fail (parse_failure body), w)
          | Some c =>
              match Knex.update mealId userId c (meals w) with
              | inl f => (fail f, w)
              | inr rows =>
                  (send 204 NoPayload, {| meals := rows; draws := draws w |})
              end
          end
      end
  end.

Definition delete_meal (mealId userId : string) (w : World) : Reply * World :=
  match getMealParamsSchema mealId with
  | None => (fail (ZodError Params), w)
  | Some mealId =>
      match find_meal mealId userId w with
      | None => (fail NotFound, w)
      | Some _ =>
          (send 204 NoPayload,
           {| meals := Knex.del mealId userId (meals w); draws := draws w |})
      end
  end.

(** [mealsRoutes]: each route with its preHandler. *)
Definition mealsRoutes (h : Host) (req : Request) (w : World) : Reply * World :=
  match route req with
  | GetMeals => checkUserIdExists (cookies_userId req) get_meals w
  | GetMeal mealId =>
      checkUserIdExists (cookies_userId req) (get_meal mealId) w
  | GetMetrics => checkUserIdExists (cookies_userId req) get_metrics w
  | PostMeal body => post_meal h req body w
  | PutMeal mealId body =>
      checkUserIdExists (cookies_userId req) (put_meal h mealId body) w
  | DeleteMeal mealId =>
      checkUserIdExists (cookies_userId req) (delete_meal mealId) w
  end.

(** ** Clients and histories *)

(** The client keeps the cookie a reply sets and sends it from then on. *)
Definition jar_after (jar : option string) (r : Reply) : option string :=
  match set_cookie r with
  | Some c => Some (cookie_value c)
  | None => jar
  end.

(** A client with cookie jar [jar] sends the routes [rs] one after the
    other; the result is its jar and the world afterwards. *)
Fixpoint session (h : Host) (jar : option string) (w : World)
    (rs : list (Route * string)) : option string * World :=
  match rs with
  | [] => (jar, w)
  | (r, t) :: rest =>
      let '(reply, w') :=
        mealsRoutes h {| cookies_userId := jar; route := r; db_now := t |} w in
      session h (jar_after jar reply) w' rest
  end.

Definition empty_world : World := {| meals := []; draws := 0 |}.

(** The worlds the service can be in: it starts with an empty table and
    serves requests, from any clients, one after the other. *)
Inductive reachable (h : Host) : World -> Prop :=
| reachable_start : reachable h empty_world
| reachable_serve : forall w req,
    reachable h w -> reachable h (snd (mealsRoutes h req w)).

(** The rows of a table that do not belong to [userId]. *)
Definition foreign_rows (userId : string) (rows : list Meal) : list Meal :=
  filter (fun m => negb (String.eqb (user_id m) userId)) rows.

(** The days a cookie lives: [maxAge] goes out as the [Max-Age] attribute
    of [Set-Cookie], which counts seconds. *)
Definition days_valid (c : Cookie) : Z := (maxAge c / (60 * 60 * 24))%Z.

(** [randomUUID] returns identifiers of the shape the params schema
    accepts. *)
Definition mints_uuids (h : Host) : Prop :=
  forall n, Zod.uuid (randomUUID_at h n) = true.

(** The world in which no meal is called [mealId]: [w] without the rows of
    that id. *)
Definition without_meal (mealId : string) (w : World) : World :=
  {| meals := filter (fun m => negb (String.eqb (id m) mealId)) (meals w);
     draws := draws w |}.

(** Descending order of the [date_time] text. *)
Definition text_desc (a b : Meal) : Prop :=
  String.leb (date_time b) (date_time a) = true.


(** ** A small history *)

(** Two clients on the host of [UTCHost].  The first has no cookie yet: it
    records a lunch eaten on 7 January 2025, then, with the cookie it was
    given, a breakfast eaten on 1 January 2025.  The second, also without a
    cookie, records a dinner. *)
Module Examples.

Definition jan01 : Z := 1735689600000.   (* 2025-01-01T00:00:00Z *)
Definition jan07 : Z := 1736208000000.   (* 2025-01-07T00:00:00Z *)

Definition lunch : Body :=
  Object [("name", JStr "lunch"); ("dateTime", JNum (inject_Z jan07));
          ("onDiet", JBool true)].

Definition breakfast : Body :=
  Object [("name", JStr "breakfast"); ("description", JStr "toast");
          ("dateTime", JNum (inject_Z jan01)); ("onDiet", JBool false)].

Definition dinner : Body :=
  Object [("name", JStr "dinner"); ("dateTime", JNum (inject_Z jan07));
          ("onDiet", JBool true)].

Definition first_client : option string * World :=
  session UTCHost.host None empty_world
    [(PostMeal lunch, "2025-01-07 12:30:00");
     (PostMeal breakfast, "2025-01-07 12:31:00")].

Definition second_client : option string * World :=
  session UTCHost.host None (snd first_client)
    [(PostMeal dinner, "2025-01-07 20:00:00")].

(** The token of the first client, and the table after the three posts. *)
Definition caller : string := UTCHost.uuid_of 0.
Definition world : World := snd second_client.

(** The rows, as the posts wrote them. *)
Definition lunch_row : Meal :=
  {| id := UTCHost.uuid_of 1; user_id := caller; name := "lunch";
     description := None;
     date_time := "Tue Jan 07 2025 00:00:00 GMT+0000 (Coordinated Universal Time)";
     on_diet := true; created_at := "2025-01-07 12:30:00" |}.

Definition breakfast_row : Meal :=
  {| id := UTCHost.uuid_of 2; user_id := caller; name := "breakfast";
     description := Some "toast";
     date_time := "Wed Jan 01 2025 00:00:00 GMT+0000 (Coordinated Universal Time)";
     on_diet := false; created_at := "2025-01-07 12:31:00" |}.

Definition dinner_row : Meal :=
  {| id := UTCHost.uuid_of 4; user_id := UTCHost.uuid_of 3; name := "dinner";
     description := None;
     date_time := "Tue Jan 07 2025 00:00:00 GMT+0000 (Coordinated Universal Time)";
     on_diet := true; created_at := "2025-01-07 20:00:00" |}.

(** A request of the first client. *)
Definition ask (r : Route) (w : World) : Reply * World :=
  mealsRoutes UTCHost.host
    {| cookies_userId := Some caller; route := r;
       db_now := "2025-01-08 09:00:00" |} w.

(** A list of meals with the given flags, for the metrics. *)
Definition flagged (flags : list bool) : list Meal :=
  map (fun b => {| id := ""; user_id := caller; name := "meal";
                   description := None; date_time := ""; on_diet := b;
                   created_at := "" |}) flags.

End Examples.

(** * Properties *)

(** ** The metrics *)

Module MetricsFacts.

Import Metrics.

Lemma counter_from (f : Meal -> bool) (meals : list Meal) (n : nat) :
  fold_left (fun total meal => if f meal then S total else total) meals n
  = n + List.length (filter f meals).
Proof.
  revert n; induction meals as [|m meals IH]; intros n; simpl.
  - lia.
  - rewrite IH. destruct (f m); simpl; lia.
Qed.

Lemma onDietMeals_counts (meals : list Meal) :
  onDietMeals meals = count_flag true meals.
Proof.
  unfold onDietMeals, count_flag.
  rewrite (counter_from on_diet). simpl. f_equal.
  apply filter_ext. intros m. now destruct (on_diet m).
Qed.

Lemma offDietMeals_counts (meals : list Meal) :
  offDietMeals meals = count_flag false meals.
Proof.
  unfold offDietMeals, count_flag.
  rewrite (counter_from (fun m => negb (on_diet m))). reflexivity.
Qed.

Lemma scan_last (meals : list Meal) (m : Meal) :
  scan (meals ++ [m]) = visit (scan meals) m.
Proof. unfold scan. now rewrite fold_left_app. Qed.

Lemma tail_run_is_run (meals run : list Meal) :
  is_tail_run meals run -> is_run_of meals run.
Proof.
  intros [[before ->] Hon]. split; [|exact Hon].
  exists before, []. now rewrite app_nil_r.
Qed.

Lemma run_grows (meals run : list Meal) (m : Meal) :
  is_run_of meals run -> is_run_of (meals ++ [m]) run.
Proof.
  intros [[before [after ->]] Hon]. split; [|exact Hon].
  exists before, (after ++ [m]). now rewrite <- !app_assoc.
Qed.

(** A run of [meals ++ [m]] either stops before [m] or ends the list. *)
Lemma run_of_snoc (meals run : list Meal) (m : Meal) :
  is_run_of (meals ++ [m]) run ->
  is_run_of meals run \/ is_tail_run (meals ++ [m]) run.
Proof.
  intros [[before [after E]] Hon].
  destruct after as [|a after] using rev_ind.
  - right. split; [|exact Hon]. exists before. now rewrite app_nil_r in E.
  - left. split; [|exact Hon]. exists before, after.
    rewrite !app_assoc in E. apply app_inj_tail in E as [E _].
    now rewrite <- app_assoc in E.
Qed.

(** A tail run of [meals ++ [m]] is empty or a tail run of [meals]
    followed by [m]. *)
Lemma tail_run_of_snoc (meals run : list Meal) (m : Meal) :
  is_tail_run (meals ++ [m]) run ->
  run = [] \/
  exists run', run = run' ++ [m] /\ is_tail_run meals run' /\ on_diet m = true.
Proof.
  intros [[before E] Hon].
  destruct run as [|r run _] using rev_ind; [now left|right].
  rewrite app_assoc in E. apply app_inj_tail in E as [E ->].
  apply Forall_app in Hon as [Hon Hr].
  exists run. repeat split; try assumption.
  - now exists before.
  - now inversion Hr.
Qed.

Lemma visit_invariant (meals : list Meal) (m : Meal) (st : streak) :
  current_run meals (bestSequenceSoFar st) ->
  longest_run meals (bestSequence st) ->
  current_run (meals ++ [m]) (bestSequenceSoFar (visit st m)) /\
  longest_run (meals ++ [m]) (bestSequence (visit st m)).
Proof.
  intros [[cur [Hcur Hlen]] Hcmax] [[top [Htop Htlen]] Htmax].
  assert (Hnow : current_run (meals ++ [m]) (bestSequenceSoFar (visit st m))).
  { unfold visit; simpl. destruct (on_diet m) eqn:Hm.
    - split.
      + exists (cur ++ [m]). split.
        * destruct Hcur as [[before ->] Hon]. split.
          -- exists before. now rewrite app_assoc.
          -- apply Forall_app. split; [exact Hon|]. now constructor.
        * rewrite length_app. simpl. lia.
      + intros run Hrun.
        apply tail_run_of_snoc in Hrun as [-> | [run' [-> [Hrun' _]]]].
        * simpl. lia.
        * rewrite length_app. simpl. specialize (Hcmax _ Hrun'). lia.
    - split.
      + exists []. split; [|reflexivity]. split; [|constructor].
        exists (meals ++ [m]). now rewrite app_nil_r.
      + intros run Hrun.
        apply tail_run_of_snoc in Hrun as [-> | [run' [_ [_ Hon]]]].
        * simpl. lia.
        * congruence. }
  split; [exact Hnow|].
  destruct Hnow as [[cur' [Hcur' Hlen']] Hcmax'].
  unfold visit in *; simpl in *.
  set (soFar := if on_diet m then S (bestSequenceSoFar st) else 0) in *.
  destruct (Nat.ltb_spec (bestSequence st) soFar) as [Hlt | Hge].
  - split.
    + exists cur'. split; [now apply tail_run_is_run | exact Hlen'].
    + intros run Hrun. apply run_of_snoc in Hrun as [Hrun | Hrun].
      * specialize (Htmax _ Hrun). lia.
      * now apply Hcmax'.
  - split.
    + exists top. split; [now apply run_grows | exact Htlen].
    + intros run Hrun. apply run_of_snoc in Hrun as [Hrun | Hrun].
      * now apply Htmax.
      * specialize (Hcmax' _ Hrun). lia.
Qed.

Lemma scan_invariant (meals : list Meal) :
  current_run meals (bestSequenceSoFar (scan meals)) /\
  longest_run meals (bestSequence (scan meals)).
Proof.
  induction meals as [|m meals IH] using rev_ind.
  - assert (Hnil : is_tail_run [] []).
    { split; [now exists []|constructor]. }
    split; (split; [exists []; split;
                    [try apply tail_run_is_run; exact Hnil | reflexivity]|]).
    + intros run [[before E] _]. symmetry in E.
      apply app_eq_nil in E as [_ ->]. simpl; lia.
    + intros run [[before [after E]] _]. symmetry in E.
      apply app_eq_nil in E as [_ E]. apply app_eq_nil in E as [-> _].
      simpl; lia.
  - rewrite scan_last. destruct IH as [Hc Hl]. now apply visit_invariant.
Qed.

Lemma scan_longest_run (meals : list Meal) :
  longest_run meals (bestSequence (scan meals)).
Proof. apply scan_invariant. Qed.

Lemma run_length_le (meals run : list Meal) :
  is_run_of meals run -> List.length run <= List.length meals.
Proof.
  intros [[before [after ->]] _]. rewrite !length_app. lia.
Qed.

Lemma whole_run (meals run : list Meal) :
  is_run_of meals run -> List.length run = List.length meals -> run = meals.
Proof.
  intros [[before [after ->]] _] E. rewrite !length_app in E.
  destruct before; [|simpl in E; lia].
  destruct after; [|simpl in E; lia].
  simpl. now rewrite app_nil_r.
Qed.

Lemma single_run (before after : list Meal) (m : Meal) :
  on_diet m = true -> is_run_of (before ++ m :: after) [m].
Proof.
  intros Hm. split; [|now constructor]. now exists before, after.
Qed.

End MetricsFacts.

(** C1.  For every list of meals, and so for the list [GET /metrics] reads
    (the caller's meals in the order of [GET /]), the metrics are:
    [recorded_meals] the length of the list, [on_diet_meals] the number of
    meals on diet, [off_diet_meals] the number of meals off diet, and
    [best_sequence] the length of the longest run of consecutive on-diet
    meals; [best_sequence] is what one left-to-right pass leaves in its
    maximum, the pass bumping a counter on an on-diet meal and resetting it
    on an off-diet one; on the empty list all four are zero. *)
Theorem metrics_are_counts_and_longest_run (meals : list Meal) :
  Metrics.recorded_meals (Metrics.compute meals) = List.length meals /\
  Metrics.on_diet_meals (Metrics.compute meals)
    = Metrics.count_flag true meals /\
  Metrics.off_diet_meals (Metrics.compute meals)
    = Metrics.count_flag false meals /\
  Metrics.longest_run meals (Metrics.best_sequence (Metrics.compute meals)) /\
  Metrics.best_sequence (Metrics.compute meals)
    = Metrics.bestSequence
        (fold_left Metrics.visit meals
           {| Metrics.bestSequence := 0; Metrics.bestSequenceSoFar := 0 |}) /\
  (forall (st : Metrics.streak) (m : Meal),
      Metrics.bestSequenceSoFar (Metrics.visit st m)
      = (if on_diet m then S (Metrics.bestSequenceSoFar st) else 0) /\
      Metrics.bestSequence (Metrics.visit st m)
      = Nat.max (Metrics.bestSequence st)
                (Metrics.bestSequenceSoFar (Metrics.visit st m))) /\
  Metrics.compute [] = Metrics.mkMetrics 0 0 0 0 /\
  (forall (h : Host) (userId t : string) (w : World),
      mealsRoutes h {| cookies_userId := Some userId; route := GetMetrics;
                       db_now := t |} w
      = (send 200 (MetricsPayload (Metrics.compute (select_meals userId w))),
         w)).
Proof.
  split; [reflexivity|].
  split; [apply MetricsFacts.onDietMeals_counts|].
  split; [apply MetricsFacts.offDietMeals_counts|].
  split; [apply MetricsFacts.scan_longest_run|].
  split; [reflexivity|].
  split; [|split; reflexivity].
  intros st m. split; [reflexivity|]. unfold Metrics.visit; simpl.
  destruct (Nat.ltb_spec (Metrics.bestSequence st)
              (if on_diet m then S (Metrics.bestSequenceSoFar st) else 0));
    lia.
Qed.

(** C3.  For every list of meals, [best_sequence <= recorded_meals];
    the two are equal exactly when every meal is on diet; and
    [best_sequence] is zero exactly when every meal is off diet. *)
Theorem best_sequence_bounds (meals : list Meal) :
  Metrics.best_sequence (Metrics.compute meals)
    <= Metrics.recorded_meals (Metrics.compute meals) /\
  (Metrics.best_sequence (Metrics.compute meals)
     = Metrics.recorded_meals (Metrics.compute meals)
   <-> Forall (fun m => on_diet m = true) meals) /\
  (Metrics.best_sequence (Metrics.compute meals) = 0
   <-> Forall (fun m => on_diet m = false) meals).
Proof.
  simpl.
  destruct (MetricsFacts.scan_longest_run meals) as [[top [Htop Hlen]] Hmax].
  split; [|split; split].
  - rewrite <- Hlen. now apply MetricsFacts.run_length_le.
  - intros E. rewrite <- Hlen in E.
    rewrite <- (MetricsFacts.whole_run _ _ Htop E). apply Htop.
  - intros Hall.
    assert (Hwhole : Metrics.is_run_of meals meals).
    { split; [|exact Hall]. exists [], []. now rewrite app_nil_r. }
    apply Nat.le_antisymm.
    + rewrite <- Hlen. now apply MetricsFacts.run_length_le.
    + now apply Hmax.
  - intros E. apply Forall_forall. intros m Hin.
    destruct (on_diet m) eqn:Hm; [|reflexivity].
    apply in_split in Hin as [before [after ->]].
    specialize (Hmax _ (MetricsFacts.single_run before after m Hm)).
    simpl in Hmax. lia.
  - intros Hall. destruct top as [|x top]; [now rewrite <- Hlen|].
    destruct Htop as [[before [after ->]] Hon].
    rewrite Forall_forall in Hall.
    assert (Hx : on_diet x = false).
    { apply Hall. apply in_or_app. right. now left. }
    inversion Hon; subst. congruence.
Qed.

Example history_rows :
  fst Examples.first_client = Some Examples.caller /\
  Examples.world
  = {| meals := [Examples.lunch_row; Examples.breakfast_row;
                 Examples.dinner_row];
       draws := 5 |}.
Proof. split; reflexivity. Qed.

Example toString_examples :
  JSDate.toString UTCHost.host 0
  = "Thu Jan 01 1970 00:00:00 GMT+0000 (Coordinated Universal Time)" /\
  JSDate.toString UTCHost.host 951782400000
  = "Tue Feb 29 2000 00:00:00 GMT+0000 (Coordinated Universal Time)" /\
  JSDate.toString UTCHost.host 1798761599000
  = "Thu Dec 31 2026 23:59:59 GMT+0000 (Coordinated Universal Time)" /\
  JSDate.toString UTCHost.host (-1)
  = "Wed Dec 31 1969 23:59:59 GMT+0000 (Coordinated Universal Time)".
Proof. repeat split. Qed.

Example uuid_examples :
  Zod.uuid "3f2504e0-4f89-41d3-9a0c-0305e82c3301" = true /\
  Zod.uuid (UTCHost.uuid_of 255) = true /\
  Zod.uuid "lunch" = false /\
  Zod.uuid "3f2504e0-4f89-41d3-9a0c-0305e82c330" = false /\
  Zod.uuid "3f2504e0-4f89-41d3-9a0c-0305e82c3301 " = false.
Proof. repeat split. Qed.

Example metrics_example :
  Metrics.compute (Examples.flagged [true; true; false; true])
  = Metrics.mkMetrics 4 3 1 2 /\
  Metrics.best_sequence (Metrics.compute (Examples.flagged [false; false])) = 0.
Proof. split; reflexivity. Qed.

(** ** Listing *)

Module ListingFacts.

Lemma place_permutation (m : Meal) (rows : list Meal) :
  Permutation (Knex.place m rows) (m :: rows).
Proof.
  induction rows as [|x rows IH]; simpl.
  - apply Permutation_refl.
  - destruct (String.leb (date_time x) (date_time m)).
    + apply Permutation_refl.
    + eapply perm_trans; [apply perm_skip, IH | apply perm_swap].
Qed.

Lemma orderBy_permutation (rows : list Meal) :
  Permutation (Knex.orderBy_date_time_desc rows) rows.
Proof.
  induction rows as [|m rows IH]; simpl.
  - apply perm_nil.
  - eapply perm_trans; [apply place_permutation | now apply perm_skip].
Qed.

Lemma place_head (x m : Meal) (rows : list Meal) :
  text_desc x m -> HdRel text_desc x rows ->
  HdRel text_desc x (Knex.place m rows).
Proof.
  intros Hxm Hhd. destruct rows as [|y rows]; simpl.
  - now constructor.
  - destruct (String.leb (date_time y) (date_time m)).
    + now constructor.
    + constructor. now inversion Hhd.
Qed.

Lemma place_sorted (m : Meal) (rows : list Meal) :
  Sorted text_desc rows -> Sorted text_desc (Knex.place m rows).
Proof.
  induction 1 as [|x rows Hsorted IH Hhd]; simpl.
  - repeat constructor.
  - destruct (String.leb (date_time x) (date_time m)) eqn:Hcmp.
    + constructor; [now constructor|]. now constructor.
    + constructor; [exact IH|]. apply place_head; [|exact Hhd].
      unfold text_desc.
      destruct (String.leb_total (date_time x) (date_time m)); congruence.
Qed.

Lemma orderBy_sorted (rows : list Meal) :
  Sorted text_desc (Knex.orderBy_date_time_desc rows).
Proof.
  induction rows as [|m rows IH]; simpl.
  - constructor.
  - now apply place_sorted.
Qed.

(** [GET /] answers with the caller's rows, all of them and each as often
    as the table has it, in descending order of the [date_time] text; and
    [GET /metrics] computes on that very list. *)
Lemma listing (h : Host) (userId t : string) (w : World) :
  let listed := select_meals userId w in
  mealsRoutes h {| cookies_userId := Some userId; route := GetMeals;
                   db_now := t |} w
  = (send 200 (MealsPayload listed), w) /\
  mealsRoutes h {| cookies_userId := Some userId; route := GetMetrics;
                   db_now := t |} w
  = (send 200 (MetricsPayload (Metrics.compute listed)), w) /\
  Permutation listed
    (filter (fun m => String.eqb (user_id m) userId) (meals w)) /\
  Sorted text_desc listed.
Proof.
  repeat split.
  - apply orderBy_permutation.
  - apply orderBy_sorted.
Qed.

End ListingFacts.

(** C2, at the history of [Examples].  The first client recorded a lunch of
    7 January and then a breakfast of 1 January.  [GET /] answers with its
    two meals and no other, but the breakfast comes first: the column holds
    the text of [String(dateTime)], and ["Wed Jan 01 ..."] sorts after
    ["Tue Jan 07 ..."].  [GET /metrics] reads the meals in that same
    order. *)
Theorem listing_follows_text_not_time :
  (Examples.jan01 < Examples.jan07)%Z /\
  date_time Examples.breakfast_row
    = JSDate.toString UTCHost.host Examples.jan01 /\
  date_time Examples.lunch_row
    = JSDate.toString UTCHost.host Examples.jan07 /\
  fst (Examples.ask GetMeals Examples.world)
    = send 200 (MealsPayload [Examples.breakfast_row; Examples.lunch_row]) /\
  fst (Examples.ask GetMetrics Examples.world)
    = send 200 (MetricsPayload
        (Metrics.compute [Examples.breakfast_row; Examples.lunch_row])).
Proof. repeat split. Qed.

(** ** The handlers *)

Module HandlerFacts.

Lemma first_filter_none (f : Meal -> bool) (rows : list Meal) :
  Knex.first (filter f rows) = None <->
  (forall m, In m rows -> f m = false).
Proof.
  induction rows as [|x rows IH]; simpl.
  - split; [intros _ m []|reflexivity].
  - destruct (f x) eqn:Hx; simpl.
    + split; [discriminate|]. intros H. specialize (H x (or_introl eq_refl)).
      congruence.
    + rewrite IH. split.
      * intros H m [<- | Hin]; [exact Hx | now apply H].
      * intros H m Hin. apply H. now right.
Qed.

Lemma selected_true (mealId userId : string) (m : Meal) :
  Knex.selected mealId userId m = true <->
  id m = mealId /\ user_id m = userId.
Proof.
  unfold Knex.selected. rewrite andb_true_iff, !String.eqb_eq. reflexivity.
Qed.

Lemma selected_false (mealId userId : string) (m : Meal) :
  Knex.selected mealId userId m = false <->
  (id m = mealId -> user_id m <> userId).
Proof.
  unfold Knex.selected. rewrite andb_false_iff, !String.eqb_neq. split.
  - intros [H | H]; congruence.
  - intros H. destruct (string_dec (id m) mealId) as [E | E].
    + right. now apply H.
    + now left.
Qed.

(** The pre-check finds nothing exactly when no row has that id and that
    owner. *)
Lemma find_meal_none (mealId userId : string) (w : World) :
  find_meal mealId userId w = None <->
  (forall m, In m (meals w) -> id m = mealId -> user_id m <> userId).
Proof.
  unfold find_meal, Knex.where_id_user. rewrite first_filter_none.
  split; intros H m Hin; apply selected_false; now apply H.
Qed.

Lemma find_meal_own (m : Meal) (w : World) :
  In m (meals w) -> find_meal (id m) (user_id m) w <> None.
Proof.
  intros Hin Hnone. rewrite find_meal_none in Hnone.
  now apply (Hnone m Hin).
Qed.

Lemma params_ok (mealId : string) :
  Zod.uuid mealId = true -> getMealParamsSchema mealId = Some mealId.
Proof. unfold getMealParamsSchema. now intros ->. Qed.

Lemma truthy_cookie (userId : string) :
  userId <> "" -> falsy (Some userId) = false.
Proof. destruct userId; [congruence|reflexivity]. Qed.

(** Every route leaves alone the rows of everybody but the caller, and
    sets no cookie when the caller brought one. *)
Lemma serve_foreign_rows (h : Host) (userId t : string) (r : Route)
    (w : World) :
  userId <> "" ->
  let served :=
    mealsRoutes h {| cookies_userId := Some userId; route := r;
                     db_now := t |} w in
  set_cookie (fst served) = None /\
  foreign_rows userId (meals (snd served))
  = foreign_rows userId (meals w).
Proof.
  intros Hne. unfold mealsRoutes; simpl.
  destruct r as [|mealId| |body|mealId body|mealId]; simpl.
  - now split.
  - unfold get_meal. destruct (getMealParamsSchema mealId); now split.
  - now split.
  - unfold post_meal.
    destruct (createMealBodySchema h body) as [b|]; [|now split].
    cbn [cookies_userId]. rewrite (truthy_cookie userId Hne).
    cbn [randomUUID fst snd meals draws set_cookie].
    split; [reflexivity|]. unfold Knex.insert, foreign_rows.
    rewrite filter_app. cbn [filter user_id]. rewrite String.eqb_refl.
    cbn [negb]. now rewrite app_nil_r.
  - unfold put_meal. destruct (getMealParamsSchema mealId) as [i|]; [|now split].
    destruct (find_meal i userId w); [|now split].
    destruct (updateMealBodySchema h body) as [c|]; [|now split].
    unfold Knex.update. destruct (Knex.sets_nothing c); simpl; [now split|].
    split; [reflexivity|]. unfold foreign_rows.
    induction (meals w) as [|x rows IH]; simpl; [reflexivity|].
    destruct (Knex.selected i userId x) eqn:Hsel.
    + apply selected_true in Hsel as [_ Hu]. simpl.
      rewrite Hu, String.eqb_refl. simpl. exact IH.
    + destruct (negb (user_id x =? userId)%string); [now f_equal|exact IH].
  - unfold delete_meal.
    destruct (getMealParamsSchema mealId) as [i|]; [|now split].
    destruct (find_meal i userId w); [|now split]. simpl.
    split; [reflexivity|]. unfold foreign_rows, Knex.del.
    induction (meals w) as [|x rows IH]; simpl; [reflexivity|].
    destruct (Knex.selected i userId x) eqn:Hsel; simpl.
    + apply selected_true in Hsel as [_ Hu].
      rewrite Hu, String.eqb_refl. simpl. exact IH.
    + destruct (negb (user_id x =? userId)%string); [now f_equal|exact IH].
Qed.

Ltac past_guard :=
  match goal with
  | |- context [match cookies_userId ?req with _ => _ end] =>
      let userId := fresh "userId" in
      destruct (cookies_userId req) as [userId|]; simpl; try assumption
  end.

(** Whatever is served, the ids in the table stay well formed. *)
Lemma serve_keeps_ids (h : Host) (req : Request) (w : World) :
  mints_uuids h ->
  Forall (fun m => Zod.uuid (id m) = true) (meals w) ->
  Forall (fun m => Zod.uuid (id m) = true)
         (meals (snd (mealsRoutes h req w))).
Proof.
  intros Hh Hw. unfold mealsRoutes, checkUserIdExists.
  destruct (route req) as [|mealId| |body|mealId body|mealId];
    [past_guard | past_guard | past_guard | idtac | past_guard | past_guard].
  - unfold get_meal. now destruct (getMealParamsSchema mealId).
  - unfold post_meal.
    destruct (createMealBodySchema h body) as [b|]; [|exact Hw].
    destruct (falsy (cookies_userId req)); simpl;
      (apply Forall_app; split; [exact Hw|]); repeat constructor; apply Hh.
  - unfold put_meal. destruct (getMealParamsSchema mealId) as [i|]; [|exact Hw].
    destruct (find_meal i userId w) as [found|]; [|exact Hw].
    destruct (updateMealBodySchema h body) as [c|]; [|exact Hw].
    unfold Knex.update. destruct (Knex.sets_nothing c); simpl; [exact Hw|].
    apply Forall_map. revert Hw. apply Forall_impl. intros r Hr.
    now destruct (Knex.selected i userId r).
  - unfold delete_meal.
    destruct (getMealParamsSchema mealId) as [i|]; [|exact Hw].
    destruct (find_meal i userId w) as [found|]; [|exact Hw]. simpl.
    unfold Knex.del. apply Forall_forall. intros r Hin.
    apply filter_In in Hin as [Hin _].
    rewrite Forall_forall in Hw. now apply Hw.
Qed.

Lemma reachable_ids (h : Host) (w : World) :
  mints_uuids h -> reachable h w ->
  Forall (fun m => Zod.uuid (id m) = true) (meals w).
Proof.
  intros Hh. induction 1 as [|w req _ IH].
  - constructor.
  - now apply serve_keeps_ids.
Qed.

Lemma session_reachable (h : Host) (rs : list (Route * string)) :
  forall jar w, reachable h w -> reachable h (snd (session h jar w rs)).
Proof.
  induction rs as [|[r t] rs IH]; intros jar w Hw; simpl.
  - exact Hw.
  - pose proof (reachable_serve h w
                  {| cookies_userId := jar; route := r; db_now := t |} Hw)
      as Hstep.
    destruct (mealsRoutes h _ w) as [reply w']. now apply IH.
Qed.

Lemma hex_digit_is_hex (n : nat) : Zod.is_hex (UTCHost.hex_digit n) = true.
Proof.
  unfold UTCHost.hex_digit.
  pose proof (Nat.mod_upper_bound n 16 ltac:(discriminate)) as Hlt.
  destruct (n mod 16) as [|k]; [reflexivity|].
  do 15 (destruct k as [|k]; [reflexivity|]). lia.
Qed.

Lemma hex_digits_block (width : nat) :
  forall k n acc rest,
    Zod.hex_block k acc = Some rest ->
    Zod.hex_block (width + k) (UTCHost.hex_digits width n acc) = Some rest.
Proof.
  induction width as [|width IH]; intros k n acc rest Hk.
  - exact Hk.
  - replace (S width + k) with (width + S k) by lia.
    change (UTCHost.hex_digits (S width) n acc)
      with (UTCHost.hex_digits width (n / 16)
              (String (UTCHost.hex_digit n) acc)).
    apply IH. cbn [Zod.hex_block]. now rewrite hex_digit_is_hex.
Qed.

(** The counting generator of [UTCHost] hands out well-formed ids. *)
Lemma utc_host_mints_uuids : mints_uuids UTCHost.host.
Proof.
  assert (Hshape : forall tail, Zod.hex_block 12 tail = Some "" ->
            Zod.uuid (String.append "00000000-0000-4000-8000-" tail) = true).
  { intros tail Htail. unfold Zod.uuid. simpl. simpl in Htail.
    now rewrite Htail. }
  intros n. apply Hshape. apply (hex_digits_block 12 0 n "" "").
  reflexivity.
Qed.

Lemma examples_world_reachable : reachable UTCHost.host Examples.world.
Proof.
  unfold Examples.world, Examples.second_client, Examples.first_client.
  do 2 apply session_reachable. constructor.
Qed.

(** What the update schema makes of each property of the body. *)
Lemma update_body_parsed (h : Host) (fields : list (string * json))
    (c : Knex.changes) :
  updateMealBodySchema h (Object fields) = Some c ->
  Zod.optional Zod.string_ (property "name" fields) = Some (Knex.set_name c) /\
  Zod.optional Zod.string_ (property "description" fields)
    = Some (Knex.set_description c) /\
  (exists t, Zod.optional (Zod_coerce_date h) (property "dateTime" fields)
             = Some t /\
             Knex.set_date_time c = option_map (JSDate.toString h) t) /\
  Zod.optional Zod.boolean (property "onDiet" fields)
    = Some (Knex.set_on_diet c).
Proof.
  unfold updateMealBodySchema.
  destruct (Zod.optional Zod.string_ (property "name" fields)) as [n|];
    [|discriminate].
  destruct (Zod.optional Zod.string_ (property "description" fields)) as [d|];
    [|discriminate].
  destruct (Zod.optional (Zod_coerce_date h) (property "dateTime" fields))
    as [t|]; [|discriminate].
  destruct (Zod.optional Zod.boolean (property "onDiet" fields)) as [o|];
    [|discriminate].
  intros [= <-]. simpl. repeat split. now exists t.
Qed.






(** Who a recorded meal belongs to.  A request without a token draws one
    identifier for the owner and the next for the meal, and hands the first
    to the client in a cookie; a request with a token draws only the id of
    the meal and sets no cookie. *)
Lemma post_meal_identity (h : Host) (w : World) (jar : option string)
    (body : Body) (t : string) :
  createMealBodySchema h body <> None ->
  let served :=
    mealsRoutes h {| cookies_userId := jar; route := PostMeal body;
                     db_now := t |} w in
  result (fst served) = Sent 201 NoPayload /\
  exists row,
    meals (snd served) = meals w ++ [row] /\
    if falsy jar
    then set_cookie (fst served)
         = Some {| cookie_name := "userId";
                   cookie_value := randomUUID_at h (draws w);
                   cookie_path := "/"; maxAge := 604800000 |} /\
         user_id row = randomUUID_at h (draws w) /\
         id row = randomUUID_at h (S (draws w)) /\
         draws (snd served) = S (S (draws w))
    else set_cookie (fst served) = None /\
         Some (user_id row) = jar /\
         id row = randomUUID_at h (draws w) /\
         draws (snd served) = S (draws w).
Proof.
  intros Hbody. unfold mealsRoutes, post_meal; cbn [route cookies_userId].
  destruct (createMealBodySchema h body) as [b|]; [clear Hbody|congruence].
  destruct (falsy jar) eqn:Hjar; simpl.
  - split; [reflexivity|]. eexists. split; [reflexivity|]. now repeat split.
  - split; [reflexivity|]. eexists. split; [reflexivity|].
    destruct jar as [[|ch u]|]; try discriminate. now repeat split.
Qed.

End HandlerFacts.



(** C5, as the code has it.  When no row has the id and the caller as its
    owner, [PUT /:id] and [DELETE /:id] fail and leave the world as it was:
    with [NotFound], thrown after the pre-check read finds nothing, when the
    id is well formed, and with the [ZodError] of the params schema, thrown
    before that read, when it is not. *)
Theorem missing_meal_fails_before_any_write (h : Host) (w : World)
    (userId mealId t : string) (body : Body) :
  (forall m, In m (meals w) -> id m = mealId -> user_id m <> userId) ->
  find_meal mealId userId w = None /\
  mealsRoutes h {| cookies_userId := Some userId;
                   route := PutMeal mealId body; db_now := t |} w
  = (fail (if Zod.uuid mealId then NotFound else ZodError Params), w) /\
  mealsRoutes h {| cookies_userId := Some userId;
                   route := DeleteMeal mealId; db_now := t |} w
  = (fail (if Zod.uuid mealId then NotFound else ZodError Params), w).
Proof.
  intros Hnone. apply HandlerFacts.find_meal_none in Hnone.
  split; [exact Hnone|].
  unfold mealsRoutes, checkUserIdExists, put_meal, delete_meal,
    getMealParamsSchema; simpl.
  destruct (Zod.uuid mealId); [rewrite Hnone|]; now split.
Qed.

Lemma missing_meal_fails_before_any_write_witness :
  Examples.ask (PutMeal (id Examples.dinner_row) Examples.lunch) Examples.world
  = (fail NotFound, Examples.world) /\
  Examples.ask (DeleteMeal (id Examples.dinner_row)) Examples.world
  = (fail NotFound, Examples.world).
Proof.
  apply (missing_meal_fails_before_any_write UTCHost.host Examples.world
           Examples.caller (id Examples.dinner_row) "2025-01-08 09:00:00"
           Examples.lunch).
  intros m [<- | [<- | [<- | []]]]; simpl; discriminate.
Defined.

(** C5, as stated, fails on an id that is not well formed: no meal is
    called ["lunch"], and [PUT /lunch] and [DELETE /lunch] fail with the
    [ZodError] of the params schema, not with [NotFound]. *)
Lemma malformed_id_is_not_NotFound :
  (forall m, In m (meals Examples.world) -> id m <> "lunch") /\
  result (fst (Examples.ask (PutMeal "lunch" Examples.lunch) Examples.world))
    = Failed (ZodError Params) /\
  result (fst (Examples.ask (DeleteMeal "lunch") Examples.world))
    = Failed (ZodError Params) /\
  result (fst (Examples.ask (DeleteMeal "lunch") Examples.world))
    <> Failed NotFound.
Proof.
  split; [|repeat split; discriminate].
  intros m [<- | [<- | [<- | []]]]; discriminate.
Qed.

(** C6.  Take a meal of the table whose id no row of the caller's has.
    [GET /:id], [PUT /:id] and [DELETE /:id] for that id answer the caller
    exactly as they do in the world without any meal of that id: the read
    sends an absent meal, the update and the delete fail with [NotFound],
    and the world stays as it was. *)
Theorem foreign_meal_looks_absent (h : Host) (w : World) (caller t : string)
    (m : Meal) (body : Body) :
  mints_uuids h -> reachable h w -> In m (meals w) ->
  (forall r, In r (meals w) -> id r = id m -> user_id r <> caller) ->
  let ask r world :=
    mealsRoutes h {| cookies_userId := Some caller; route := r;
                     db_now := t |} world in
  (ask (GetMeal (id m)) w = (send 200 (MealPayload None), w) /\
   ask (GetMeal (id m)) (without_meal (id m) w)
   = (send 200 (MealPayload None), without_meal (id m) w)) /\
  (ask (PutMeal (id m) body) w = (fail NotFound, w) /\
   ask (PutMeal (id m) body) (without_meal (id m) w)
   = (fail NotFound, without_meal (id m) w)) /\
  (ask (DeleteMeal (id m)) w = (fail NotFound, w) /\
   ask (DeleteMeal (id m)) (without_meal (id m) w)
   = (fail NotFound, without_meal (id m) w)).
Proof.
  intros Hh Hw Hin Hforeign.
  pose proof (HandlerFacts.reachable_ids h w Hh Hw) as Hids.
  rewrite Forall_forall in Hids. specialize (Hids m Hin).
  apply HandlerFacts.find_meal_none in Hforeign.
  assert (Habsent : find_meal (id m) caller (without_meal (id m) w) = None).
  { apply HandlerFacts.find_meal_none. intros r Hr E.
    apply filter_In in Hr as [_ Hr]. apply String.eqb_eq in E.
    rewrite E in Hr. discriminate. }
  unfold mealsRoutes, checkUserIdExists, get_meal, put_meal, delete_meal;
    cbn [route cookies_userId].
  rewrite (HandlerFacts.params_ok _ Hids), Hforeign, Habsent.
  repeat split.
Qed.

Lemma foreign_meal_looks_absent_witness :
  (Examples.ask (GetMeal (id Examples.dinner_row)) Examples.world
   = (send 200 (MealPayload None), Examples.world) /\
   Examples.ask (GetMeal (id Examples.dinner_row))
     (without_meal (id Examples.dinner_row) Examples.world)
   = (send 200 (MealPayload None),
      without_meal (id Examples.dinner_row) Examples.world)) /\
  (Examples.ask (PutMeal (id Examples.dinner_row) Examples.lunch)
     Examples.world
   = (fail NotFound, Examples.world) /\
   Examples.ask (PutMeal (id Examples.dinner_row) Examples.lunch)
     (without_meal (id Examples.dinner_row) Examples.world)
   = (fail NotFound, without_meal (id Examples.dinner_row) Examples.world)) /\
  (Examples.ask (DeleteMeal (id Examples.dinner_row)) Examples.world
   = (fail NotFound, Examples.world) /\
   Examples.ask (DeleteMeal (id Examples.dinner_row))
     (without_meal (id Examples.dinner_row) Examples.world)
   = (fail NotFound, without_meal (id Examples.dinner_row) Examples.world)).
Proof.
  apply (foreign_meal_looks_absent UTCHost.host Examples.world
           Examples.caller "2025-01-08 09:00:00" Examples.dinner_row
           Examples.lunch).
  - exact HandlerFacts.utc_host_mints_uuids.
  - exact HandlerFacts.examples_world_reachable.
  - simpl. right. right. now left.
  - intros r [<- | [<- | [<- | []]]]; simpl; discriminate.
Defined.

(** C8, as the code has it.  When the body of [POST /] has no [name] or one
    that is not a string, or no [onDiet] or one that is not a boolean, or a
    [dateTime] that [new Date] does not turn into a valid date (in
    particular when the body is no object at all), the request fails
    before anything else happens: no row is inserted, no identifier drawn,
    no cookie set.  It fails with the [ZodError] of the body schema, unless
    the [dateTime] is an array or object that cannot be converted to a
    primitive: then [new Date] throws inside the schema and the request
    fails with that [TypeError]. *)
Theorem invalid_create_body_writes_nothing (h : Host) (w : World)
    (jar : option string) (body : Body) (t : string) :
  (forall s, body_property "name" body <> Some (JStr s)) \/
  (forall b, body_property "onDiet" body <> Some (JBool b)) \/
  JSDate.construct h (body_property "dateTime" body) = None ->
  mealsRoutes h {| cookies_userId := jar; route := PostMeal body;
                   db_now := t |} w
  = (fail (if JSDate.throws (body_property "dateTime" body)
           then TypeError else ZodError RequestBody), w).
Proof.
  intros Hbad. unfold mealsRoutes, post_meal; cbn [route].
  assert (Hrefused : createMealBodySchema h body = None).
  { destruct body as [|fields]; [reflexivity|].
    unfold createMealBodySchema, Zod_coerce_date. cbn [body_property] in Hbad.
    destruct Hbad as [Hname | [Hflag | Hdate]].
    - destruct (property "name" fields) as [[| | |s|]|]; try reflexivity.
      now destruct (Hname s).
    - destruct (Zod.string_ (property "name" fields)); [|reflexivity].
      destruct (Zod.optional Zod.string_ (property "description" fields));
        [|reflexivity].
      destruct (JSDate.construct h (property "dateTime" fields));
        [|reflexivity].
      destruct (property "onDiet" fields) as [[|b| | |]|]; try reflexivity.
      now destruct (Hflag b).
    - rewrite Hdate.
      destruct (Zod.string_ (property "name" fields)); [|reflexivity].
      now destruct (Zod.optional Zod.string_
                      (property "description" fields)). }
  now rewrite Hrefused.
Qed.

Lemma invalid_create_body_writes_nothing_witness :
  mealsRoutes UTCHost.host
    {| cookies_userId := None;
       route := PostMeal (Object [("name", JStr "lunch");
                                  ("dateTime", JStr "yesterday");
                                  ("onDiet", JBool true)]);
       db_now := "2025-01-08 09:00:00" |} Examples.world
  = (fail (ZodError RequestBody), Examples.world) /\
  mealsRoutes UTCHost.host
    {| cookies_userId := None;
       route := PostMeal (Object [("name", JStr "lunch");
                                  ("dateTime", JComposite None);
                                  ("onDiet", JBool true)]);
       db_now := "2025-01-08 09:00:00" |} Examples.world
  = (fail TypeError, Examples.world) /\
  mealsRoutes UTCHost.host
    {| cookies_userId := None; route := PostMeal NotAnObject;
       db_now := "2025-01-08 09:00:00" |} Examples.world
  = (fail (ZodError RequestBody), Examples.world).
Proof.
  split; [|split].
  - apply (invalid_create_body_writes_nothing UTCHost.host Examples.world None
             (Object [("name", JStr "lunch"); ("dateTime", JStr "yesterday");
                      ("onDiet", JBool true)]) "2025-01-08 09:00:00").
    right. right. reflexivity.
  - apply (invalid_create_body_writes_nothing UTCHost.host Examples.world None
             (Object [("name", JStr "lunch"); ("dateTime", JComposite None);
                      ("onDiet", JBool true)]) "2025-01-08 09:00:00").
    right. right. reflexivity.
  - apply (invalid_create_body_writes_nothing UTCHost.host Examples.world None
             NotAnObject "2025-01-08 09:00:00").
    left. discriminate.
Defined.

(** C8, as stated, fails on an empty name: [z.string()] accepts it, and the
    meal is recorded. *)
Lemma empty_name_is_recorded :
  let body := Object [("name", JStr ""); ("dateTime", JNum (inject_Z 0));
                      ("onDiet", JBool true)] in
  let served := Examples.ask (PostMeal body) empty_world in
  property "name" [("name", JStr ""); ("dateTime", JNum (inject_Z 0));
                   ("onDiet", JBool true)] = Some (JStr "") /\
  result (fst served) = Sent 201 NoPayload /\
  result (fst served) <> Failed (ZodError RequestBody) /\
  map name (meals (snd served)) = [""].
Proof. repeat split. discriminate. Qed.

(** C9, as the code has it.  [PUT /:id] validates the id, then reads, then
    validates the body.  So, whatever the body: it fails with the
    [ZodError] of the params schema exactly when the id is not well formed;
    it fails with [NotFound] exactly when the id is well formed and no row
    has that id and the caller as its owner; and an error of the body
    arises only when the id is well formed and such a row exists: the
    [ZodError] of the body schema exactly when, besides, the schema refuses
    the body and [new Date] does not throw on its [dateTime], the
    [TypeError] of [new Date] exactly when it does. *)
Theorem put_reads_before_it_validates_the_body (h : Host) (w : World)
    (userId mealId t : string) (body : Body) :
  let reply :=
    fst (mealsRoutes h {| cookies_userId := Some userId;
                          route := PutMeal mealId body; db_now := t |} w) in
  (result reply = Failed (ZodError Params) <-> Zod.uuid mealId = false) /\
  (result reply = Failed NotFound <->
   Zod.uuid mealId = true /\
   (forall m, In m (meals w) -> id m = mealId -> user_id m <> userId)) /\
  (result reply = Failed (ZodError RequestBody) <->
   Zod.uuid mealId = true /\
   (exists m, In m (meals w) /\ id m = mealId /\ user_id m = userId) /\
   updateMealBodySchema h body = None /\
   JSDate.throws (body_property "dateTime" body) = false) /\
  (result reply = Failed TypeError <->
   Zod.uuid mealId = true /\
   (exists m, In m (meals w) /\ id m = mealId /\ user_id m = userId) /\
   JSDate.throws (body_property "dateTime" body) = true).
Proof.
  unfold mealsRoutes, checkUserIdExists, put_meal, getMealParamsSchema;
    cbn [route cookies_userId].
  rewrite <- HandlerFacts.find_meal_none.
  assert (Hsome : forall found, find_meal mealId userId w = Some found ->
            exists m, In m (meals w) /\ id m = mealId /\ user_id m = userId).
  { unfold find_meal, Knex.where_id_user, Knex.first. intros found E.
    destruct (filter _ (meals w)) as [|x rows] eqn:F; [discriminate|].
    assert (Hx : In x (filter (Knex.selected mealId userId) (meals w))).
    { rewrite F. now left. }
    apply filter_In in Hx as [Hin Hsel].
    apply HandlerFacts.selected_true in Hsel. now exists x. }
  assert (Hnone : find_meal mealId userId w = None ->
            ~ exists m, In m (meals w) /\ id m = mealId /\ user_id m = userId).
  { intros E [m [Hin [Hid Hu]]]. rewrite HandlerFacts.find_meal_none in E.
    now apply (E m Hin Hid). }
  assert (Hthrows : JSDate.throws (body_property "dateTime" body) = true ->
            updateMealBodySchema h body = None).
  { destruct body as [|fields]; [reflexivity|]. cbn [body_property].
    unfold updateMealBodySchema, JSDate.throws.
    destruct (property "dateTime" fields) as [[| | | |[prim|]]|];
      try discriminate.
    intros _. cbn.
    destruct (Zod.optional Zod.string_ (property "name" fields));
      [|reflexivity].
    now destruct (Zod.optional Zod.string_ (property "description" fields)). }
  unfold parse_failure.
  destruct (Zod.uuid mealId).
  - destruct (find_meal mealId userId w) as [found|] eqn:Hfind.
    + specialize (Hsome found eq_refl). clear Hnone.
      destruct (updateMealBodySchema h body) as [c|].
      * destruct (JSDate.throws (body_property "dateTime" body));
          [now specialize (Hthrows eq_refl)|].
        unfold Knex.update. destruct (Knex.sets_nothing c); simpl;
          intuition discriminate.
      * destruct (JSDate.throws (body_property "dateTime" body)); simpl;
          intuition discriminate.
    + specialize (Hnone eq_refl). clear Hsome. simpl.
      intuition discriminate.
  - simpl. intuition discriminate.
Qed.

(** C9, as stated, fails on an id that is not well formed: no meal is called
    ["lunch"], the body is not even an object, and [PUT /lunch] fails with
    the [ZodError] of the params schema, not with [NotFound]. *)
Lemma malformed_id_with_bad_body_is_not_NotFound :
  (forall m, In m (meals Examples.world) -> id m <> "lunch") /\
  updateMealBodySchema UTCHost.host NotAnObject = None /\
  result (fst (Examples.ask (PutMeal "lunch" NotAnObject) Examples.world))
    = Failed (ZodError Params) /\
  result (fst (Examples.ask (PutMeal "lunch" NotAnObject) Examples.world))
    <> Failed NotFound.
Proof.
  split; [|repeat split; discriminate].
  intros m [<- | [<- | [<- | []]]]; discriminate.
Qed.

(** C10.  A client that holds a (non-empty) token keeps it, and whatever
    it asks for, one request after the other, the rows of every other owner
    are in the table afterwards exactly as they were before: none added,
    none rewritten, none removed.  And a meal recorded by [POST /] belongs
    to the token the client holds once it has the reply. *)
Theorem writes_stay_with_the_caller (h : Host) (w : World) (userId : string)
    (rs : list (Route * string)) :
  userId <> "" ->
  fst (session h (Some userId) w rs) = Some userId /\
  foreign_rows userId (meals (snd (session h (Some userId) w rs)))
  = foreign_rows userId (meals w) /\
  (forall (jar : option string) (body : Body) (t : string),
      createMealBodySchema h body <> None ->
      let served :=
        mealsRoutes h {| cookies_userId := jar; route := PostMeal body;
                         db_now := t |} w in
      exists row,
        meals (snd served) = meals w ++ [row] /\
        jar_after jar (fst served) = Some (user_id row)).
Proof.
  intros Hne. split; [|split].
  - revert w. induction rs as [|[r t] rs IH]; intros w; simpl; [reflexivity|].
    destruct (HandlerFacts.serve_foreign_rows h userId t r w Hne)
      as [Hcookie _].
    destruct (mealsRoutes h _ w) as [reply w']. simpl in Hcookie.
    unfold jar_after. rewrite Hcookie. apply IH.
  - revert w. induction rs as [|[r t] rs IH]; intros w; simpl; [reflexivity|].
    destruct (HandlerFacts.serve_foreign_rows h userId t r w Hne)
      as [Hcookie Hrows].
    destruct (mealsRoutes h _ w) as [reply w']. simpl in Hcookie, Hrows.
    unfold jar_after. rewrite Hcookie, IH. exact Hrows.
  - intros jar body t Hbody.
    destruct (HandlerFacts.post_meal_identity h w jar body t Hbody)
      as [_ [row [Hrows Hown]]].
    exists row. split; [exact Hrows|]. unfold jar_after.
    destruct (falsy jar).
    + destruct Hown as [-> [-> _]]. reflexivity.
    + destruct Hown as [-> [-> _]]. reflexivity.
Qed.

Lemma writes_stay_with_the_caller_witness :
  let asked :=
    [(PutMeal (id Examples.dinner_row) Examples.breakfast, "2025-01-08 09:00:00");
     (DeleteMeal (id Examples.dinner_row), "2025-01-08 09:01:00");
     (DeleteMeal (id Examples.lunch_row), "2025-01-08 09:02:00");
     (PostMeal Examples.dinner, "2025-01-08 09:03:00")] in
  fst (session UTCHost.host (Some Examples.caller) Examples.world asked)
  = Some Examples.caller /\
  foreign_rows Examples.caller
    (meals (snd (session UTCHost.host (Some Examples.caller) Examples.world
                   asked)))
  = [Examples.dinner_row].
Proof.
  intros asked.
  destruct (writes_stay_with_the_caller UTCHost.host Examples.world
              Examples.caller asked) as [Hjar [Hrows _]].
  - discriminate.
  - split; [exact Hjar|]. rewrite Hrows. reflexivity.
Defined.

(** C7, at a first [POST /].  A client without a token records a lunch:
    the reply sets the cookie [userId] to the identifier just drawn, the
    meal belongs to it, and [maxAge] is [1000 * 60 * 60 * 24 * 7]; read as
    the seconds of [Max-Age] that is 7000 days, where seven days are 604800
    seconds.  The same client, now with its cookie, records a breakfast:
    no cookie is set and the meal belongs to the same token. *)
Theorem minted_cookie_lives_7000_days :
  let first :=
    mealsRoutes UTCHost.host
      {| cookies_userId := None; route := PostMeal Examples.lunch;
         db_now := "2025-01-07 12:30:00" |} empty_world in
  let second :=
    mealsRoutes UTCHost.host
      {| cookies_userId := jar_after None (fst first);
         route := PostMeal Examples.breakfast;
         db_now := "2025-01-07 12:31:00" |} (snd first) in
  set_cookie (fst first)
  = Some {| cookie_name := "userId"; cookie_value := Examples.caller;
            cookie_path := "/"; maxAge := 604800000 |} /\
  map user_id (meals (snd first)) = [Examples.caller] /\
  option_map days_valid (set_cookie (fst first)) = Some 7000%Z /\
  (7 * 24 * 60 * 60 = 604800)%Z /\
  set_cookie (fst second) = None /\
  map user_id (meals (snd second)) = [Examples.caller; Examples.caller].
Proof. repeat split. Qed.

(** ** More on the metrics *)

Module MetricsMore.

Import Metrics.

Lemma counts_partition (meals : list Meal) :
  count_flag true meals + count_flag false meals = List.length meals.
Proof.
  unfold count_flag. induction meals as [|m meals IH]; simpl; [reflexivity|].
  destruct (on_diet m); simpl; lia.
Qed.

Lemma run_fits_on_diet (meals run : list Meal) :
  is_run_of meals run -> List.length run <= count_flag true meals.
Proof.
  intros [[before [after ->]] Hon]. unfold count_flag.
  rewrite !filter_app, !length_app.
  assert (E : filter (fun m => Bool.eqb (on_diet m) true) run = run).
  { apply forallb_filter_id. apply forallb_forall. intros m Hin.
    rewrite Forall_forall in Hon. now rewrite (Hon m Hin). }
  rewrite E. lia.
Qed.

(** There is one longest-run length. *)
Lemma longest_run_unique (meals : list Meal) (n n' : nat) :
  longest_run meals n -> longest_run meals n' -> n = n'.
Proof.
  intros [[r [Hr Hn]] Hmax] [[r' [Hr' Hn']] Hmax'].
  apply Nat.le_antisymm.
  - rewrite <- Hn. now apply Hmax'.
  - rewrite <- Hn'. now apply Hmax.
Qed.

Lemma run_of_rev (meals run : list Meal) :
  is_run_of meals run -> is_run_of (rev meals) (rev run).
Proof.
  intros [[before [after ->]] Hon]. split.
  - exists (rev after), (rev before). now rewrite !rev_app_distr, app_assoc.
  - now apply Forall_rev.
Qed.

Lemma longest_run_rev (meals : list Meal) (n : nat) :
  longest_run meals n -> longest_run (rev meals) n.
Proof.
  intros [[r [Hr Hn]] Hmax]. split.
  - exists (rev r). split; [now apply run_of_rev | now rewrite length_rev].
  - intros run Hrun. apply run_of_rev in Hrun. rewrite rev_involutive in Hrun.
    rewrite <- (length_rev run). now apply Hmax.
Qed.

Lemma best_is_longest (meals : list Meal) :
  longest_run meals (best_sequence (compute meals)).
Proof. apply MetricsFacts.scan_longest_run. Qed.

Lemma run_in_left (l1 l2 run : list Meal) :
  is_run_of l1 run -> is_run_of (l1 ++ l2) run.
Proof.
  intros [[before [after ->]] Hon]. split; [|exact Hon].
  exists before, (after ++ l2). now rewrite <- !app_assoc.
Qed.

Lemma run_in_right (l1 l2 run : list Meal) :
  is_run_of l2 run -> is_run_of (l1 ++ l2) run.
Proof.
  intros [[before [after ->]] Hon]. split; [|exact Hon].
  exists (l1 ++ before), after. now rewrite <- !app_assoc.
Qed.

(** A run of [l1 ++ l2] is a run that ends [l1] followed by a run that
    starts [l2]. *)
Lemma run_across (l1 l2 run : list Meal) :
  is_run_of (l1 ++ l2) run ->
  exists r1 r2, run = r1 ++ r2 /\ is_run_of l1 r1 /\ is_run_of l2 r2.
Proof.
  assert (Hempty : forall l : list Meal, is_run_of l []).
  { intros l. split; [|constructor]. now exists [], l. }
  intros [[before [after E]] Hon].
  symmetry in E. apply app_eq_app in E as [mid [[E1 E2] | [E1 E2]]].
  - (* the run starts inside [l2] *)
    exists [], run. split; [reflexivity|]. split; [apply Hempty|].
    split; [|exact Hon]. now exists mid, after.
  - symmetry in E2. apply app_eq_app in E2 as [rest [[E3 E4] | [E3 E4]]].
    + (* the run ends inside [l1] *)
      exists run, []. split; [now rewrite app_nil_r|].
      split; [|apply Hempty].
      split; [|exact Hon]. exists before, rest. now rewrite E1, E3.
    + (* the run crosses the seam *)
      subst run. apply Forall_app in Hon as [Hmid Hrest].
      exists mid, rest. split; [reflexivity|]. split.
      * split; [|exact Hmid]. exists before, []. now rewrite app_nil_r.
      * split; [|exact Hrest]. now exists [], after.
Qed.

Lemma count_flag_permutation (b : bool) (l l' : list Meal) :
  Permutation l l' -> count_flag b l = count_flag b l'.
Proof.
  unfold count_flag. induction 1 as [|x l l' _ IH|x y l|l l' l'' _ IH1 _ IH2];
    simpl.
  - reflexivity.
  - destruct (Bool.eqb (on_diet x) b); simpl; now rewrite IH.
  - now destruct (Bool.eqb (on_diet x) b), (Bool.eqb (on_diet y) b).
  - now rewrite IH1.
Qed.

End MetricsMore.

(** X1.  The two counters split the list: [on_diet_meals] and
    [off_diet_meals] add up to [recorded_meals]; and the best sequence is
    made of on-diet meals, so it is at most [on_diet_meals]. *)
Theorem counters_add_up (meals : list Meal) :
  Metrics.on_diet_meals (Metrics.compute meals)
  + Metrics.off_diet_meals (Metrics.compute meals)
  = Metrics.recorded_meals (Metrics.compute meals) /\
  Metrics.best_sequence (Metrics.compute meals)
  <= Metrics.on_diet_meals (Metrics.compute meals).
Proof.
  cbn [Metrics.compute Metrics.on_diet_meals Metrics.off_diet_meals
       Metrics.recorded_meals Metrics.best_sequence].
  rewrite MetricsFacts.onDietMeals_counts, MetricsFacts.offDietMeals_counts.
  split; [apply MetricsMore.counts_partition|].
  destruct (MetricsFacts.scan_longest_run meals) as [[top [Htop Hlen]] _].
  rewrite <- Hlen. now apply MetricsMore.run_fits_on_diet.
Qed.

(** X2.  The metrics do not depend on the direction the list is read in:
    the meals in reverse order give the same four numbers, the best
    sequence included. *)
Theorem metrics_of_reversed_list (meals : list Meal) :
  Metrics.compute (rev meals) = Metrics.compute meals.
Proof.
  assert (Hbest : Metrics.best_sequence (Metrics.compute (rev meals))
                  = Metrics.best_sequence (Metrics.compute meals)).
  { apply (MetricsMore.longest_run_unique (rev meals)).
    - apply MetricsMore.best_is_longest.
    - apply MetricsMore.longest_run_rev, MetricsMore.best_is_longest. }
  unfold Metrics.compute in *. cbn [Metrics.best_sequence] in Hbest.
  rewrite Hbest, !MetricsFacts.onDietMeals_counts,
    !MetricsFacts.offDietMeals_counts.
  unfold Metrics.count_flag. now rewrite !filter_rev, !length_rev.
Qed.

(** X3.  The metrics of two lists put end to end: the counters add, and the
    best sequence is at least the best sequence of either part and at most
    the two added. *)
Theorem metrics_of_appended_lists (l1 l2 : list Meal) :
  let m1 := Metrics.compute l1 in
  let m2 := Metrics.compute l2 in
  let m := Metrics.compute (l1 ++ l2) in
  Metrics.recorded_meals m
  = Metrics.recorded_meals m1 + Metrics.recorded_meals m2 /\
  Metrics.on_diet_meals m
  = Metrics.on_diet_meals m1 + Metrics.on_diet_meals m2 /\
  Metrics.off_diet_meals m
  = Metrics.off_diet_meals m1 + Metrics.off_diet_meals m2 /\
  Nat.max (Metrics.best_sequence m1) (Metrics.best_sequence m2)
  <= Metrics.best_sequence m /\
  Metrics.best_sequence m
  <= Metrics.best_sequence m1 + Metrics.best_sequence m2.
Proof.
  intros m1 m2 m.
  destruct (MetricsMore.best_is_longest l1) as [[r1 [Hr1 Hn1]] Hmax1].
  destruct (MetricsMore.best_is_longest l2) as [[r2 [Hr2 Hn2]] Hmax2].
  destruct (MetricsMore.best_is_longest (l1 ++ l2)) as [[r [Hr Hn]] Hmax].
  fold m1 in Hn1, Hmax1. fold m2 in Hn2, Hmax2. fold m in Hn, Hmax.
  split; [apply length_app|].
  split.
  { unfold m, m1, m2. cbn [Metrics.compute Metrics.on_diet_meals].
    rewrite !MetricsFacts.onDietMeals_counts. unfold Metrics.count_flag.
    now rewrite filter_app, length_app. }
  split.
  { unfold m, m1, m2. cbn [Metrics.compute Metrics.off_diet_meals].
    rewrite !MetricsFacts.offDietMeals_counts. unfold Metrics.count_flag.
    now rewrite filter_app, length_app. }
  split.
  - apply Nat.max_lub.
    + rewrite <- Hn1. apply Hmax. now apply MetricsMore.run_in_left.
    + rewrite <- Hn2. apply Hmax. now apply MetricsMore.run_in_right.
  - rewrite <- Hn.
    apply MetricsMore.run_across in Hr as [p1 [p2 [-> [Hp1 Hp2]]]].
    rewrite length_app. specialize (Hmax1 _ Hp1). specialize (Hmax2 _ Hp2).
    lia.
Qed.

(** X4.  The three counters do not depend on the order of the list at all:
    two lists with the same meals, in any order, have the same
    [recorded_meals], [on_diet_meals] and [off_diet_meals]. *)
Theorem counters_ignore_order (l l' : list Meal) :
  Permutation l l' ->
  Metrics.recorded_meals (Metrics.compute l)
  = Metrics.recorded_meals (Metrics.compute l') /\
  Metrics.on_diet_meals (Metrics.compute l)
  = Metrics.on_diet_meals (Metrics.compute l') /\
  Metrics.off_diet_meals (Metrics.compute l)
  = Metrics.off_diet_meals (Metrics.compute l').
Proof.
  intros Hperm.
  cbn [Metrics.compute Metrics.on_diet_meals Metrics.off_diet_meals
       Metrics.recorded_meals].
  rewrite !MetricsFacts.onDietMeals_counts, !MetricsFacts.offDietMeals_counts.
  split; [now apply Permutation_length|].
  split; now apply MetricsMore.count_flag_permutation.
Qed.

Lemma counters_ignore_order_witness :
  Metrics.recorded_meals
    (Metrics.compute [Examples.lunch_row; Examples.breakfast_row])
  = Metrics.recorded_meals
      (Metrics.compute [Examples.breakfast_row; Examples.lunch_row]) /\
  Metrics.on_diet_meals
    (Metrics.compute [Examples.lunch_row; Examples.breakfast_row])
  = Metrics.on_diet_meals
      (Metrics.compute [Examples.breakfast_row; Examples.lunch_row]) /\
  Metrics.off_diet_meals
    (Metrics.compute [Examples.lunch_row; Examples.breakfast_row])
  = Metrics.off_diet_meals
      (Metrics.compute [Examples.breakfast_row; Examples.lunch_row]).
Proof.
  apply (counters_ignore_order [Examples.lunch_row; Examples.breakfast_row]
           [Examples.breakfast_row; Examples.lunch_row]).
  apply perm_swap.
Defined.

(** ** More on the handlers *)

Module StoreFacts.

Lemma filter_nothing {A : Type} (f : A -> bool) (l : list A) :
  (forall x, In x l -> f x = false) -> filter f l = [].
Proof.
  induction l as [|x l IH]; simpl; intros H; [reflexivity|].
  rewrite (H x (or_introl eq_refl)). apply IH. intros y Hy. apply H. now right.
Qed.

Lemma filter_everything {A : Type} (f : A -> bool) (l : list A) :
  (forall x, In x l -> f x = true) -> filter f l = l.
Proof.
  induction l as [|x l IH]; simpl; intros H; [reflexivity|].
  rewrite (H x (or_introl eq_refl)). f_equal. apply IH. intros y Hy.
  apply H. now right.
Qed.

Lemma permutation_filter {A : Type} (f : A -> bool) (l l' : list A) :
  Permutation l l' -> Permutation (filter f l) (filter f l').
Proof.
  induction 1 as [|x l l' _ IH|x y l|l l' l'' _ IH1 _ IH2]; simpl.
  - constructor.
  - destruct (f x); [now constructor | exact IH].
  - destruct (f x), (f y); try apply Permutation_refl. apply perm_swap.
  - now apply perm_trans with (filter f l').
Qed.

(** Selecting by id and owner is selecting by id among the owner's rows. *)
Lemma where_id_among_own (mealId userId : string) (rows : list Meal) :
  Knex.where_id_user mealId userId rows
  = filter (fun m => String.eqb (id m) mealId) (Knex.where_user userId rows).
Proof.
  unfold Knex.where_id_user, Knex.where_user, Knex.selected.
  induction rows as [|x rows IH]; simpl; [reflexivity|].
  destruct (String.eqb (user_id x) userId); simpl.
  - rewrite andb_true_r. destruct (String.eqb (id x) mealId); now rewrite IH.
  - now rewrite andb_false_r.
Qed.

Lemma find_meal_among_own (mealId userId : string) (w : World) :
  find_meal mealId userId w
  = Knex.first (filter (fun m => String.eqb (id m) mealId)
                       (Knex.where_user userId (meals w))).
Proof. unfold find_meal. now rewrite where_id_among_own. Qed.

(** The owner's rows after an update are the owner's rows, updated. *)
Lemma own_rows_updated (mealId userId : string) (c : Knex.changes)
    (rows : list Meal) :
  Knex.where_user userId
    (map (fun m => if Knex.selected mealId userId m
                   then Knex.rewrite_row c m else m) rows)
  = map (fun m => if String.eqb (id m) mealId
                  then Knex.rewrite_row c m else m)
        (Knex.where_user userId rows).
Proof.
  unfold Knex.where_user, Knex.selected.
  induction rows as [|x rows IH]; simpl; [reflexivity|].
  destruct (String.eqb (user_id x) userId) eqn:Hu.
  - rewrite andb_true_r.
    destruct (String.eqb (id x) mealId) eqn:Hi; simpl; rewrite Hu; simpl;
      now rewrite Hi, IH.
  - rewrite andb_false_r, Hu. exact IH.
Qed.

(** The owner's rows after a delete are the owner's rows of another id. *)
Lemma own_rows_deleted (mealId userId : string) (rows : list Meal) :
  Knex.where_user userId (Knex.del mealId userId rows)
  = filter (fun m => negb (String.eqb (id m) mealId))
           (Knex.where_user userId rows).
Proof.
  unfold Knex.where_user, Knex.del, Knex.selected.
  induction rows as [|x rows IH]; simpl; [reflexivity|].
  destruct (String.eqb (user_id x) userId) eqn:Hu.
  - rewrite andb_true_r.
    destruct (String.eqb (id x) mealId) eqn:Hi; simpl.
    + rewrite Hi. exact IH.
    + rewrite Hu. simpl. now rewrite Hi, IH.
  - rewrite andb_false_r. simpl. rewrite Hu. exact IH.
Qed.

Lemma own_rows_inserted (userId : string) (row : Meal) (rows : list Meal) :
  user_id row = userId ->
  Knex.where_user userId (Knex.insert row rows)
  = Knex.where_user userId rows ++ [row].
Proof.
  intros Hu. unfold Knex.where_user, Knex.insert. rewrite filter_app. simpl.
  now rewrite Hu, String.eqb_refl.
Qed.

Lemma select_meals_own (userId : string) (w1 w2 : World) :
  Knex.where_user userId (meals w1) = Knex.where_user userId (meals w2) ->
  select_meals userId w1 = select_meals userId w2.
Proof. unfold select_meals. now intros ->. Qed.

Lemma find_meal_own_rows (mealId userId : string) (w1 w2 : World) :
  Knex.where_user userId (meals w1) = Knex.where_user userId (meals w2) ->
  find_meal mealId userId w1 = find_meal mealId userId w2.
Proof. rewrite !find_meal_among_own. now intros ->. Qed.

Lemma serve_own_rows (h : Host) (userId t : string) (r : Route)
    (w1 w2 : World) :
  userId <> "" ->
  Knex.where_user userId (meals w1) = Knex.where_user userId (meals w2) ->
  let serve w :=
    mealsRoutes h {| cookies_userId := Some userId; route := r;
                     db_now := t |} w in
  fst (serve w1) = fst (serve w2) /\
  (draws w1 = draws w2 \/ (forall body, r <> PostMeal body) ->
   Knex.where_user userId (meals (snd (serve w1)))
   = Knex.where_user userId (meals (snd (serve w2)))).
Proof.
  intros Hne Hown. unfold mealsRoutes, checkUserIdExists;
    cbn [route cookies_userId].
  destruct r as [|mealId| |body|mealId body|mealId].
  - unfold get_meals. cbn [fst snd].
    now rewrite (select_meals_own userId w1 w2 Hown).
  - unfold get_meal. destruct (getMealParamsSchema mealId) as [i|];
      cbn [fst snd]; [|now split].
    now rewrite (find_meal_own_rows i userId w1 w2 Hown).
  - unfold get_metrics. cbn [fst snd].
    now rewrite (select_meals_own userId w1 w2 Hown).
  - unfold post_meal. destruct (createMealBodySchema h body) as [b|];
      cbn [fst snd cookies_userId db_now]; [|now split].
    rewrite (HandlerFacts.truthy_cookie userId Hne).
    cbn [randomUUID fst snd meals draws]. split; [reflexivity|].
    intros [Hdraws | Hnot]; [|now destruct (Hnot body)].
    rewrite !own_rows_inserted by reflexivity.
    now rewrite Hown, Hdraws.
  - unfold put_meal. destruct (getMealParamsSchema mealId) as [i|];
      cbn [fst snd]; [|now split].
    rewrite (find_meal_own_rows i userId w1 w2 Hown).
    destruct (find_meal i userId w2); cbn [fst snd]; [|now split].
    destruct (updateMealBodySchema h body) as [c|]; cbn [fst snd];
      [|now split].
    unfold Knex.update. destruct (Knex.sets_nothing c); cbn [fst snd meals];
      [now split|].
    split; [reflexivity|]. intros _.
    now rewrite !own_rows_updated, Hown.
  - unfold delete_meal. destruct (getMealParamsSchema mealId) as [i|];
      cbn [fst snd]; [|now split].
    rewrite (find_meal_own_rows i userId w1 w2 Hown).
    destruct (find_meal i userId w2); cbn [fst snd meals]; [|now split].
    split; [reflexivity|]. intros _.
    now rewrite !own_rows_deleted, Hown.
Qed.

(** The rows of [userId] are among the rows that are not [other]'s. *)
Lemma own_rows_are_foreign (userId other : string) (rows : list Meal) :
  userId <> other ->
  Knex.where_user userId (foreign_rows other rows)
  = Knex.where_user userId rows.
Proof.
  intros Hne. unfold Knex.where_user, foreign_rows.
  induction rows as [|x rows IH]; simpl; [reflexivity|].
  destruct (String.eqb (user_id x) other) eqn:Ho; simpl.
  - apply String.eqb_eq in Ho.
    assert (Hx : String.eqb (user_id x) userId = false).
    { apply String.eqb_neq. congruence. }
    now rewrite Hx.
  - destruct (String.eqb (user_id x) userId); now rewrite IH.
Qed.

(** A whole session of [other] leaves the rows of everybody else alone. *)
Lemma session_foreign_rows (h : Host) (other : string)
    (rs : list (Route * string)) :
  other <> "" ->
  forall w,
    foreign_rows other (meals (snd (session h (Some other) w rs)))
    = foreign_rows other (meals w).
Proof.
  intros Hne. induction rs as [|[r t] rs IH]; intros w; simpl; [reflexivity|].
  destruct (HandlerFacts.serve_foreign_rows h other t r w Hne)
    as [Hcookie Hrows].
  destruct (mealsRoutes h _ w) as [reply w']. simpl in Hcookie, Hrows.
  unfold jar_after. now rewrite Hcookie, IH.
Qed.

End StoreFacts.

(** X5.  [GET /] never writes, and what it sends is the caller's rows: each
    row of the table whose [user_id] is the caller's token, as often as the
    table has it, and no row of anybody else, in descending order of the
    [date_time] text. *)
Theorem get_meals_lists_own_rows (h : Host) (userId t : string) (w : World) :
  exists listed,
    mealsRoutes h {| cookies_userId := Some userId; route := GetMeals;
                     db_now := t |} w
    = (send 200 (MealsPayload listed), w) /\
    Permutation listed (Knex.where_user userId (meals w)) /\
    (forall m, In m listed <-> In m (meals w) /\ user_id m = userId) /\
    List.length listed <= List.length (meals w) /\
    Sorted text_desc listed.
Proof.
  exists (select_meals userId w).
  assert (Hperm : Permutation (select_meals userId w)
                    (Knex.where_user userId (meals w))).
  { apply ListingFacts.orderBy_permutation. }
  split; [reflexivity|]. split; [exact Hperm|]. split; [|split].
  - intros m. split.
    + intros Hin. apply (Permutation_in _ Hperm) in Hin.
      apply filter_In in Hin as [Hin Hu]. now apply String.eqb_eq in Hu.
    + intros [Hin Hu]. apply (Permutation_in _ (Permutation_sym Hperm)).
      apply filter_In. split; [exact Hin|]. now apply String.eqb_eq.
  - rewrite (Permutation_length Hperm). apply filter_length_le.
  - apply ListingFacts.orderBy_sorted.
Qed.

(** X6.  What a client is answered depends on its own rows only.  In two
    worlds that hold the same rows for the caller, every route gives the
    caller the same reply; and afterwards the two worlds still hold the
    same rows for the caller, provided the route is not [POST /] or the
    generator stands at the same place (the id of a new meal is drawn from
    it). *)
Theorem replies_depend_on_own_rows (h : Host) (userId t : string) (r : Route)
    (w1 w2 : World) :
  userId <> "" ->
  Knex.where_user userId (meals w1) = Knex.where_user userId (meals w2) ->
  let serve w :=
    mealsRoutes h {| cookies_userId := Some userId; route := r;
                     db_now := t |} w in
  fst (serve w1) = fst (serve w2) /\
  (draws w1 = draws w2 \/ (forall body, r <> PostMeal body) ->
   Knex.where_user userId (meals (snd (serve w1)))
   = Knex.where_user userId (meals (snd (serve w2)))).
Proof.
  intros Hne Hown. now apply StoreFacts.serve_own_rows.
Qed.

Lemma replies_depend_on_own_rows_witness :
  fst (Examples.ask GetMetrics Examples.world)
  = fst (Examples.ask GetMetrics (snd Examples.first_client)) /\
  fst (Examples.ask (DeleteMeal (id Examples.lunch_row)) Examples.world)
  = fst (Examples.ask (DeleteMeal (id Examples.lunch_row))
           (snd Examples.first_client)).
Proof.
  split.
  - apply (replies_depend_on_own_rows UTCHost.host Examples.caller
             "2025-01-08 09:00:00" GetMetrics Examples.world
             (snd Examples.first_client)); [discriminate | reflexivity].
  - apply (replies_depend_on_own_rows UTCHost.host Examples.caller
             "2025-01-08 09:00:00" (DeleteMeal (id Examples.lunch_row))
             Examples.world (snd Examples.first_client));
      [discriminate | reflexivity].
Defined.

(** X7.  A request that fails has changed nothing: whatever the failure
    (no token, a refused id or body, no such meal, an update that sets no
    column), the world is as it was and no cookie is set. *)
Theorem failed_request_writes_nothing (h : Host) (req : Request) (w : World)
    (f : failure) :
  result (fst (mealsRoutes h req w)) = Failed f ->
  mealsRoutes h req w = (fail f, w).
Proof.
  unfold mealsRoutes, checkUserIdExists.
  destruct (route req) as [|mealId| |body|mealId body|mealId].
  - destruct (cookies_userId req); simpl; [discriminate|].
    now intros [= <-].
  - destruct (cookies_userId req) as [u|]; simpl; [|now intros [= <-]].
    unfold get_meal. destruct (getMealParamsSchema mealId); simpl;
      [discriminate | now intros [= <-]].
  - destruct (cookies_userId req); simpl; [discriminate|].
    now intros [= <-].
  - unfold post_meal. destruct (createMealBodySchema h body); simpl;
      [|now intros [= <-]].
    destruct (falsy (cookies_userId req)); simpl; discriminate.
  - destruct (cookies_userId req) as [u|]; simpl; [|now intros [= <-]].
    unfold put_meal. destruct (getMealParamsSchema mealId) as [i|]; simpl;
      [|now intros [= <-]].
    destruct (find_meal i u w); simpl; [|now intros [= <-]].
    destruct (updateMealBodySchema h body) as [c|]; simpl;
      [|now intros [= <-]].
    unfold Knex.update. destruct (Knex.sets_nothing c); simpl;
      [now intros [= <-] | discriminate].
  - destruct (cookies_userId req) as [u|]; simpl; [|now intros [= <-]].
    unfold delete_meal. destruct (getMealParamsSchema mealId) as [i|]; simpl;
      [|now intros [= <-]].
    destruct (find_meal i u w); simpl; [discriminate | now intros [= <-]].
Qed.

Lemma failed_request_writes_nothing_witness :
  Examples.ask (PutMeal (id Examples.lunch_row) (Object [])) Examples.world
  = (fail EmptyUpdate, Examples.world).
Proof.
  apply (failed_request_writes_nothing UTCHost.host
           {| cookies_userId := Some Examples.caller;
              route := PutMeal (id Examples.lunch_row) (Object []);
              db_now := "2025-01-08 09:00:00" |} Examples.world EmptyUpdate).
  reflexivity.
Defined.

Module CreateFacts.

(** The row [POST /] writes, from the parsed body, the owner, the id drawn
    for it and the store's clock. *)
Lemma post_meal_row (h : Host) (w : World) (jar : option string)
    (body : Body) (b : createMealBody) (t : string) :
  createMealBodySchema h body = Some b ->
  let owner :=
    if falsy jar then randomUUID_at h (draws w)
    else match jar with Some u => u | None => "" end in
  let mealId :=
    randomUUID_at h (if falsy jar then S (draws w) else draws w) in
  mealsRoutes h {| cookies_userId := jar; route := PostMeal body;
                   db_now := t |} w
  = ({| result := Sent 201 NoPayload;
        set_cookie :=
          if falsy jar
          then Some {| cookie_name := "userId"; cookie_value := owner;
                       cookie_path := "/"; maxAge := cookie_maxAge |}
          else None |},
     {| meals := meals w ++
                 [{| id := mealId; user_id := owner;
                     name := create_name b;
                     description := create_description b;
                     date_time := JSDate.toString h (create_dateTime b);
                     on_diet := create_onDiet b;
                     created_at := t |}];
        draws := S (if falsy jar then S (draws w) else draws w) |}).
Proof.
  intros Hb. unfold mealsRoutes, post_meal; cbn [route cookies_userId db_now].
  rewrite Hb. now destruct (falsy jar).
Qed.

Lemma owner_after_post (jar : option string) (fresh : string) :
  jar_after jar
    {| result := Sent 201 NoPayload;
       set_cookie :=
         if falsy jar
         then Some {| cookie_name := "userId"; cookie_value := fresh;
                      cookie_path := "/"; maxAge := cookie_maxAge |}
         else None |}
  = Some (if falsy jar then fresh
          else match jar with Some u => u | None => "" end).
Proof. unfold jar_after. now destruct jar as [[|ch u]|]. Qed.

(** The body schema of [POST /], property by property. *)
Lemma create_body_accepted (h : Host) (fields : list (string * json)) :
  createMealBodySchema h (Object fields) <> None <->
  (exists n, property "name" fields = Some (JStr n)) /\
  (property "description" fields = None \/
   exists d, property "description" fields = Some (JStr d)) /\
  (exists tv, JSDate.construct h (property "dateTime" fields) = Some tv) /\
  (exists o, property "onDiet" fields = Some (JBool o)).
Proof.
  unfold createMealBodySchema, Zod_coerce_date. split.
  - intros Hok.
    destruct (property "name" fields) as [[| | |n|]|]; simpl in Hok;
      try congruence.
    destruct (property "description" fields) as [[| | |d|]|]; simpl in Hok;
      try congruence;
      (destruct (JSDate.construct h (property "dateTime" fields)) as [tv|];
       [|congruence]);
      (destruct (property "onDiet" fields) as [[|o| | |]|]; simpl in Hok;
       try congruence);
      (split; [now exists n|]); (split; [|split; [now exists tv|now exists o]]).
    + right. now exists d.
    + now left.
  - intros [[n ->] [Hd [[tv ->] [o ->]]]].
    destruct Hd as [-> | [d ->]]; simpl; discriminate.
Qed.

End CreateFacts.



(** X9.  A client that is given a token sees its own meal and nothing else.
    After the first [POST /] of a client without a token, and provided the
    token drawn for it owns no row yet, [GET /] with that token lists
    exactly the meal just recorded and [GET /metrics] counts that one
    meal. *)
Theorem new_client_sees_its_meal_only (h : Host) (w : World)
    (jar : option string) (body : Body) (b : createMealBody) (t t' : string) :
  falsy jar = true ->
  createMealBodySchema h body = Some b ->
  (forall m, In m (meals w) -> user_id m <> randomUUID_at h (draws w)) ->
  let served :=
    mealsRoutes h {| cookies_userId := jar; route := PostMeal body;
                     db_now := t |} w in
  let token := randomUUID_at h (draws w) in
  let row :=
    {| id := randomUUID_at h (S (draws w)); user_id := token;
       name := create_name b; description := create_description b;
       date_time := JSDate.toString h (create_dateTime b);
       on_diet := create_onDiet b; created_at := t |} in
  jar_after jar (fst served) = Some token /\
  fst (mealsRoutes h {| cookies_userId := Some token; route := GetMeals;
                        db_now := t' |} (snd served))
  = send 200 (MealsPayload [row]) /\
  fst (mealsRoutes h {| cookies_userId := Some token; route := GetMetrics;
                        db_now := t' |} (snd served))
  = send 200 (MetricsPayload
                (if create_onDiet b then Metrics.mkMetrics 1 1 0 1
                 else Metrics.mkMetrics 1 0 1 0)).
Proof.
  intros Hjar Hb Hfresh served token row. unfold served.
  rewrite (CreateFacts.post_meal_row h w jar body b t Hb). cbn [fst snd].
  rewrite CreateFacts.owner_after_post, Hjar.
  split; [reflexivity|].
  assert (Hlist : select_meals token
                    {| meals := meals w ++ [row]; draws := S (S (draws w)) |}
                  = [row]).
  { unfold select_meals, Knex.where_user; cbn [meals].
    rewrite filter_app, StoreFacts.filter_nothing.
    - cbn [filter app user_id row]. now rewrite String.eqb_refl.
    - intros m Hin. apply String.eqb_neq. now apply Hfresh. }
  unfold mealsRoutes, checkUserIdExists, get_meals, get_metrics;
    cbn [route cookies_userId fst].
  fold token. fold row. rewrite Hlist. split; [reflexivity|].
  unfold row. now destruct (create_onDiet b).
Qed.

Lemma new_client_sees_its_meal_only_witness :
  jar_after None
    (fst (mealsRoutes UTCHost.host
            {| cookies_userId := None; route := PostMeal Examples.breakfast;
               db_now := "2025-01-08 09:00:00" |} Examples.world))
  = Some (UTCHost.uuid_of 5) /\
  fst (mealsRoutes UTCHost.host
         {| cookies_userId := Some (UTCHost.uuid_of 5); route := GetMeals;
            db_now := "2025-01-08 10:00:00" |}
         (snd (mealsRoutes UTCHost.host
                 {| cookies_userId := None;
                    route := PostMeal Examples.breakfast;
                    db_now := "2025-01-08 09:00:00" |} Examples.world)))
  = send 200
      (MealsPayload
         [{| id := UTCHost.uuid_of 6; user_id := UTCHost.uuid_of 5;
             name := "breakfast"; description := Some "toast";
             date_time := JSDate.toString UTCHost.host Examples.jan01;
             on_diet := false; created_at := "2025-01-08 09:00:00" |}]) /\
  fst (mealsRoutes UTCHost.host
         {| cookies_userId := Some (UTCHost.uuid_of 5); route := GetMetrics;
            db_now := "2025-01-08 10:00:00" |}
         (snd (mealsRoutes UTCHost.host
                 {| cookies_userId := None;
                    route := PostMeal Examples.breakfast;
                    db_now := "2025-01-08 09:00:00" |} Examples.world)))
  = send 200 (MetricsPayload (Metrics.mkMetrics 1 0 1 0)).
Proof.
  apply (new_client_sees_its_meal_only UTCHost.host Examples.world None
           Examples.breakfast
           {| create_name := "breakfast"; create_description := Some "toast";
              create_dateTime := Examples.jan01; create_onDiet := false |}
           "2025-01-08 09:00:00" "2025-01-08 10:00:00").
  - reflexivity.
  - reflexivity.
  - intros m [<- | [<- | [<- | []]]]; discriminate.
Defined.

(** X10.  Who a recorded meal belongs to.  [POST /] tests [!userId]: a
    client whose [userId] cookie is the empty string is served exactly like
    a client without the cookie.  For such a client the handler draws two
    identifiers, the first for the token and the second for the meal, and
    sets the cookie [userId] on the path [/] to the token; for a client
    with a non-empty token it draws one, for the meal, and sets no
    cookie. *)
Theorem post_mints_for_missing_or_empty_cookie (h : Host) (w : World)
    (body : Body) (b : createMealBody) (t : string) :
  createMealBodySchema h body = Some b ->
  let post jar :=
    mealsRoutes h {| cookies_userId := jar; route := PostMeal body;
                     db_now := t |} w in
  post (Some "") = post None /\
  (exists c,
      set_cookie (fst (post None)) = Some c /\
      cookie_name c = "userId" /\ cookie_path c = "/" /\
      cookie_value c = randomUUID_at h (draws w) /\
      map user_id (meals (snd (post None)))
      = map user_id (meals w) ++ [randomUUID_at h (draws w)] /\
      map id (meals (snd (post None)))
      = map id (meals w) ++ [randomUUID_at h (S (draws w))] /\
      draws (snd (post None)) = 2 + draws w) /\
  (forall userId, userId <> "" ->
      set_cookie (fst (post (Some userId))) = None /\
      map user_id (meals (snd (post (Some userId))))
      = map user_id (meals w) ++ [userId] /\
      map id (meals (snd (post (Some userId))))
      = map id (meals w) ++ [randomUUID_at h (draws w)] /\
      draws (snd (post (Some userId))) = 1 + draws w).
Proof.
  intros Hb post. unfold post.
  rewrite (CreateFacts.post_meal_row h w None body b t Hb).
  rewrite (CreateFacts.post_meal_row h w (Some "") body b t Hb).
  split; [reflexivity|]. split.
  - eexists. cbn [falsy fst snd set_cookie meals draws].
    split; [reflexivity|]. rewrite !map_app. now repeat split.
  - intros userId Hne.
    rewrite (CreateFacts.post_meal_row h w (Some userId) body b t Hb).
    rewrite (HandlerFacts.truthy_cookie userId Hne).
    cbn [fst snd set_cookie meals draws]. rewrite !map_app. now repeat split.
Qed.

Lemma post_mints_for_missing_or_empty_cookie_witness :
  mealsRoutes UTCHost.host
    {| cookies_userId := Some ""; route := PostMeal Examples.lunch;
       db_now := "2025-01-08 09:00:00" |} Examples.world
  = mealsRoutes UTCHost.host
      {| cookies_userId := None; route := PostMeal Examples.lunch;
         db_now := "2025-01-08 09:00:00" |} Examples.world.
Proof.
  apply (post_mints_for_missing_or_empty_cookie UTCHost.host Examples.world
           Examples.lunch
           {| create_name := "lunch"; create_description := None;
              create_dateTime := Examples.jan07; create_onDiet := true |}
           "2025-01-08 09:00:00").
  reflexivity.
Defined.

(** X11.  What [POST /] accepts.  A body that is an object is recorded
    (201) exactly when [name] is a string, [description] is left out or a
    string, [dateTime] makes a valid date under [new Date], and [onDiet] is
    a boolean; so a [description] of [null] is refused.  Otherwise nothing
    is written and the request fails: with the [TypeError] of [new Date]
    exactly when the [dateTime] is an array or object that cannot be
    converted to a primitive, and with the [ZodError] of the body in every
    other case, as it does for a body that is no object.  No other failure
    can come out of [POST /]. *)
Theorem post_accepts_exactly (h : Host) (w : World) (jar : option string)
    (fields : list (string * json)) (t : string) :
  let served :=
    mealsRoutes h {| cookies_userId := jar; route := PostMeal (Object fields);
                     db_now := t |} w in
  (result (fst served) = Sent 201 NoPayload <->
   (exists n, property "name" fields = Some (JStr n)) /\
   (property "description" fields = None \/
    exists d, property "description" fields = Some (JStr d)) /\
   (exists tv, JSDate.construct h (property "dateTime" fields) = Some tv) /\
   (exists o, property "onDiet" fields = Some (JBool o))) /\
  (result (fst served) = Failed TypeError <->
   JSDate.throws (property "dateTime" fields) = true) /\
  (result (fst served) = Sent 201 NoPayload \/
   served = (fail (ZodError RequestBody), w) \/
   served = (fail TypeError, w)) /\
  mealsRoutes h {| cookies_userId := jar; route := PostMeal NotAnObject;
                   db_now := t |} w
  = (fail (ZodError RequestBody), w).
Proof.
  intros served.
  pose proof (CreateFacts.create_body_accepted h fields) as Haccepted.
  rewrite <- Haccepted.
  assert (Hthrows : JSDate.throws (property "dateTime" fields) = true ->
            createMealBodySchema h (Object fields) = None).
  { unfold createMealBodySchema, Zod_coerce_date, JSDate.throws.
    destruct (property "dateTime" fields) as [[| | | |[prim|]]|];
      try discriminate.
    intros _. cbn.
    destruct (Zod.string_ (property "name" fields)); [|reflexivity].
    now destruct (Zod.optional Zod.string_
                    (property "description" fields)). }
  destruct (createMealBodySchema h (Object fields)) as [b|] eqn:Hb.
  - unfold served.
    rewrite (CreateFacts.post_meal_row h w jar (Object fields) b t Hb).
    cbn [fst result]. repeat split; try discriminate.
    + intros Ht. now specialize (Hthrows Ht).
    + now left.
  - assert (Hfail : served = (fail (parse_failure (Object fields)), w)).
    { unfold served, mealsRoutes, post_meal; cbn [route]. now rewrite Hb. }
    rewrite Hfail. unfold parse_failure. cbn [body_property].
    destruct (JSDate.throws (property "dateTime" fields));
      cbn [fst result fail]; repeat split; try discriminate;
      try (intros H; now destruct H); auto.
Qed.

(** X12.  A [dateTime] of [null] is not refused: [new Date(null)] is a valid
    date, the epoch.  A body whose other properties are in order and whose
    [dateTime] is [null] is recorded, with the text of 1 January 1970 as
    its [date_time]. *)
Theorem null_date_is_recorded_as_epoch (h : Host) (w : World)
    (jar : option string) (fields : list (string * json)) (t : string) :
  (exists n, property "name" fields = Some (JStr n)) ->
  (property "description" fields = None \/
   exists d, property "description" fields = Some (JStr d)) ->
  (exists o, property "onDiet" fields = Some (JBool o)) ->
  property "dateTime" fields = Some JNull ->
  let served :=
    mealsRoutes h {| cookies_userId := jar; route := PostMeal (Object fields);
                     db_now := t |} w in
  result (fst served) = Sent 201 NoPayload /\
  map date_time (meals (snd served))
  = map date_time (meals w) ++ [JSDate.toString h 0].
Proof.
  intros [n Hn] Hd [o Ho] Hdate served.
  assert (Hb : exists d,
             createMealBodySchema h (Object fields)
             = Some {| create_name := n; create_description := d;
                       create_dateTime := 0; create_onDiet := o |}).
  { unfold createMealBodySchema, Zod_coerce_date.
    rewrite Hn, Ho, Hdate. destruct Hd as [-> | [d ->]]; simpl; eauto. }
  destruct Hb as [d Hb]. unfold served.
  rewrite (CreateFacts.post_meal_row h w jar (Object fields) _ t Hb).
  cbn [fst snd result meals]. split; [reflexivity|].
  now rewrite map_app.
Qed.

Lemma null_date_is_recorded_as_epoch_witness :
  let fields := [("name", JStr "snack"); ("dateTime", JNull);
                 ("onDiet", JBool false)] in
  let served := Examples.ask (PostMeal (Object fields)) empty_world in
  result (fst served) = Sent 201 NoPayload /\
  map date_time (meals (snd served))
  = ["Thu Jan 01 1970 00:00:00 GMT+0000 (Coordinated Universal Time)"].
Proof.
  apply (null_date_is_recorded_as_epoch UTCHost.host empty_world
           (Some Examples.caller)
           [("name", JStr "snack"); ("dateTime", JNull);
            ("onDiet", JBool false)] "2025-01-08 09:00:00").
  - now exists "snack".
  - now left.
  - now exists false.
  - reflexivity.
Defined.

Module UpdateFacts.

Lemma rewrite_row_twice (c : Knex.changes) (m : Meal) :
  Knex.rewrite_row c (Knex.rewrite_row c m) = Knex.rewrite_row c m.
Proof.
  unfold Knex.rewrite_row, Knex.or_keep. simpl.
  now destruct c as [[n|] [d|] [t|] [o|]].
Qed.

Lemma selected_rewritten (mealId userId : string) (c : Knex.changes)
    (m : Meal) :
  Knex.selected mealId userId (Knex.rewrite_row c m)
  = Knex.selected mealId userId m.
Proof. reflexivity. Qed.

(** The rows an update selects are the rows it selected, updated. *)
Lemma selected_after_update (mealId userId : string) (c : Knex.changes)
    (rows : list Meal) :
  filter (Knex.selected mealId userId)
    (map (fun m => if Knex.selected mealId userId m
                   then Knex.rewrite_row c m else m) rows)
  = map (Knex.rewrite_row c) (filter (Knex.selected mealId userId) rows).
Proof.
  induction rows as [|x rows IH]; simpl; [reflexivity|].
  destruct (Knex.selected mealId userId x) eqn:Hx.
  - rewrite selected_rewritten, Hx. simpl. now rewrite IH.
  - rewrite Hx. exact IH.
Qed.

Lemma update_twice (mealId userId : string) (c : Knex.changes)
    (rows : list Meal) :
  let f := fun m => if Knex.selected mealId userId m
                    then Knex.rewrite_row c m else m in
  map f (map f rows) = map f rows.
Proof.
  intros f. rewrite map_map. apply map_ext. intros m. unfold f.
  destruct (Knex.selected mealId userId m) eqn:Hm.
  - now rewrite selected_rewritten, Hm, rewrite_row_twice.
  - now rewrite Hm.
Qed.

Lemma optional_string_absent (v : option json) (n : option string) :
  Zod.optional Zod.string_ v = Some n -> (n = None <-> v = None).
Proof.
  destruct v as [[| | | |]|]; simpl; intros [= <-]; split; congruence.
Qed.

Lemma optional_boolean_absent (v : option json) (n : option bool) :
  Zod.optional Zod.boolean v = Some n -> (n = None <-> v = None).
Proof.
  destruct v as [[| | | |]|]; simpl; intros [= <-]; split; congruence.
Qed.

Lemma optional_date_absent (h : Host) (v : option json) (t : option Z) :
  Zod.optional (Zod_coerce_date h) v = Some t -> (t = None <-> v = None).
Proof.
  unfold Zod.optional. destruct v as [v|].
  - destruct (Zod_coerce_date h (Some v)); simpl; intros [= <-];
      split; congruence.
  - intros [= <-]. now split.
Qed.

(** An accepted update body sets no column exactly when it has none of the
    four properties. *)
Lemma sets_nothing_absent (h : Host) (fields : list (string * json))
    (c : Knex.changes) :
  updateMealBodySchema h (Object fields) = Some c ->
  (Knex.sets_nothing c = true <->
   property "name" fields = None /\
   property "description" fields = None /\
   property "dateTime" fields = None /\
   property "onDiet" fields = None).
Proof.
  intros Hc.
  apply HandlerFacts.update_body_parsed in Hc as [Hn [Hd [[t [Ht Hset]] Ho]]].
  apply optional_string_absent in Hn, Hd.
  apply optional_boolean_absent in Ho. apply optional_date_absent in Ht.
  rewrite <- Hn, <- Hd, <- Ht, <- Ho. unfold Knex.sets_nothing.
  rewrite Hset.
  destruct (Knex.set_name c), (Knex.set_description c), t,
    (Knex.set_on_diet c); simpl; split; try discriminate;
    try (intros [? [? [? ?]]]; discriminate); now repeat split.
Qed.

Lemma filter_shorter {A : Type} (f : A -> bool) (l : list A) (x : A) :
  In x l -> f x = false -> List.length (filter f l) < List.length l.
Proof.
  induction l as [|y l IH]; simpl; intros Hin Hx; [contradiction|].
  destruct Hin as [-> | Hin].
  - rewrite Hx. pose proof (filter_length_le f l). lia.
  - specialize (IH Hin Hx). destruct (f y); simpl; lia.
Qed.

Lemma first_in (rows : list Meal) (m : Meal) :
  Knex.first rows = Some m -> In m rows.
Proof. destruct rows; simpl; [discriminate|]. intros [= ->]. now left. Qed.

(** What the pre-check read finds is a row of the table with that id and
    that owner. *)
Lemma find_meal_found (mealId userId : string) (w : World) (m : Meal) :
  find_meal mealId userId w = Some m ->
  In m (meals w) /\ id m = mealId /\ user_id m = userId.
Proof.
  intros Hfind. apply first_in in Hfind. apply filter_In in Hfind as [Hin Hs].
  split; [exact Hin|]. now apply HandlerFacts.selected_true.
Qed.

End UpdateFacts.

(** X13.  [PUT /:id] is idempotent: the same request a second time gives
    the same reply and leaves the world as the first left it. *)
Theorem put_twice_is_put_once (h : Host) (w : World) (jar : option string)
    (mealId t : string) (body : Body) :
  let put world :=
    mealsRoutes h {| cookies_userId := jar; route := PutMeal mealId body;
                     db_now := t |} world in
  put (snd (put w)) = put w.
Proof.
  unfold mealsRoutes, checkUserIdExists; cbn [route cookies_userId].
  destruct jar as [userId|]; [|reflexivity].
  unfold put_meal.
  destruct (getMealParamsSchema mealId) as [i|]; cbn [snd];
    [|reflexivity].
  destruct (find_meal i userId w) as [found|] eqn:Hfind; cbn [snd];
    [|now rewrite Hfind].
  destruct (updateMealBodySchema h body) as [c|]; cbn [snd];
    [|now rewrite Hfind].
  unfold Knex.update.
  destruct (Knex.sets_nothing c); cbn [snd meals draws].
  - now rewrite Hfind.
  - assert (Hagain : find_meal i userId
              {| meals := map (fun m => if Knex.selected i userId m
                                        then Knex.rewrite_row c m else m)
                              (meals w);
                 draws := draws w |}
            = Some (Knex.rewrite_row c found)).
    { unfold find_meal, Knex.where_id_user in *. cbn [meals].
      rewrite UpdateFacts.selected_after_update.
      destruct (filter (Knex.selected i userId) (meals w)); simpl in *;
        [discriminate|]. now injection Hfind as ->. }
    rewrite Hagain. cbn [meals draws].
    now rewrite (UpdateFacts.update_twice i userId c (meals w)).
Qed.

(** X14.  [PUT /:id] never adds or removes a row and never touches the
    [id], the [user_id] or the [created_at] of any row, nor does it draw an
    identifier: whatever the request, these three columns read the same,
    row for row, before and after. *)
Theorem put_keeps_identity_columns (h : Host) (w : World)
    (jar : option string) (mealId t : string) (body : Body) :
  let after :=
    snd (mealsRoutes h {| cookies_userId := jar; route := PutMeal mealId body;
                          db_now := t |} w) in
  map id (meals after) = map id (meals w) /\
  map user_id (meals after) = map user_id (meals w) /\
  map created_at (meals after) = map created_at (meals w) /\
  List.length (meals after) = List.length (meals w) /\
  draws after = draws w.
Proof.
  unfold mealsRoutes, checkUserIdExists; cbn [route cookies_userId].
  destruct jar as [userId|]; [|now repeat split].
  unfold put_meal.
  destruct (getMealParamsSchema mealId) as [i|]; [|now repeat split].
  destruct (find_meal i userId w) as [found|]; [|now repeat split].
  destruct (updateMealBodySchema h body) as [c|]; [|now repeat split].
  unfold Knex.update. destruct (Knex.sets_nothing c); cbn [snd meals draws];
    [now repeat split|].
  rewrite !map_map, length_map.
  repeat split; apply map_ext; intros r;
    now destruct (Knex.selected i userId r).
Qed.

(** X15.  When [PUT /:id] goes through.  For a well-formed id of a meal of
    the caller's and a body the schema accepts, the update answers 204
    unless the body has none of [name], [description], [dateTime] and
    [onDiet]: then there is no column to set, knex refuses the update, and
    the request fails with the world unchanged. *)
Theorem put_outcome_for_own_meal (h : Host) (w : World) (m : Meal)
    (fields : list (string * json)) (t : string) :
  Zod.uuid (id m) = true -> In m (meals w) ->
  updateMealBodySchema h (Object fields) <> None ->
  let served :=
    mealsRoutes h {| cookies_userId := Some (user_id m);
                     route := PutMeal (id m) (Object fields);
                     db_now := t |} w in
  let nothing_supplied :=
    property "name" fields = None /\
    property "description" fields = None /\
    property "dateTime" fields = None /\
    property "onDiet" fields = None in
  (nothing_supplied -> served = (fail EmptyUpdate, w)) /\
  (~ nothing_supplied -> fst served = send 204 NoPayload).
Proof.
  intros Hid Hin Hbody served nothing_supplied.
  destruct (updateMealBodySchema h (Object fields)) as [c|] eqn:Hc;
    [clear Hbody|congruence].
  pose proof (UpdateFacts.sets_nothing_absent h fields c Hc) as Hnothing.
  fold nothing_supplied in Hnothing.
  unfold served, mealsRoutes, checkUserIdExists, put_meal;
    cbn [route cookies_userId].
  rewrite (HandlerFacts.params_ok _ Hid).
  pose proof (HandlerFacts.find_meal_own m w Hin) as Hfound.
  destruct (find_meal (id m) (user_id m) w); [|congruence].
  rewrite Hc. unfold Knex.update.
  destruct (Knex.sets_nothing c); split; intros H; cbn [fst].
  - reflexivity.
  - destruct H. now apply Hnothing.
  - apply Hnothing in H. discriminate.
  - reflexivity.
Qed.

Lemma put_outcome_for_own_meal_witness :
  Examples.ask (PutMeal (id Examples.lunch_row) (Object [])) Examples.world
  = (fail EmptyUpdate, Examples.world) /\
  fst (Examples.ask (PutMeal (id Examples.lunch_row)
                       (Object [("name", JStr "brunch")])) Examples.world)
  = send 204 NoPayload.
Proof.
  split.
  - apply (put_outcome_for_own_meal UTCHost.host Examples.world
             Examples.lunch_row [] "2025-01-08 09:00:00");
      [reflexivity | now left | discriminate | now repeat split].
  - apply (put_outcome_for_own_meal UTCHost.host Examples.world
             Examples.lunch_row [("name", JStr "brunch")]
             "2025-01-08 09:00:00");
      [reflexivity | now left | discriminate |].
    intros [Hname _]. discriminate.
Defined.

Module DeleteFacts.

(** A [DELETE /:id] that answers 204 had a well-formed id and found a row,
    and leaves the table without the selected rows. *)
Lemma delete_succeeded (h : Host) (w : World) (userId mealId t : string) :
  result (fst (mealsRoutes h {| cookies_userId := Some userId;
                                route := DeleteMeal mealId; db_now := t |} w))
  = Sent 204 NoPayload ->
  Zod.uuid mealId = true /\
  (exists m, find_meal mealId userId w = Some m) /\
  snd (mealsRoutes h {| cookies_userId := Some userId;
                        route := DeleteMeal mealId; db_now := t |} w)
  = {| meals := Knex.del mealId userId (meals w); draws := draws w |}.
Proof.
  unfold mealsRoutes, checkUserIdExists, delete_meal, getMealParamsSchema;
    cbn [route cookies_userId].
  destruct (Zod.uuid mealId); [|discriminate].
  destruct (find_meal mealId userId w) as [m|]; [|discriminate].
  intros _. split; [reflexivity|]. split; [now exists m | reflexivity].
Qed.

Lemma find_meal_deleted (mealId userId : string) (rows : list Meal)
    (n : nat) :
  find_meal mealId userId
    {| meals := Knex.del mealId userId rows; draws := n |} = None.
Proof.
  apply HandlerFacts.find_meal_none. cbn [meals]. intros m Hin.
  apply filter_In in Hin as [_ Hsel]. apply HandlerFacts.selected_false.
  now destruct (Knex.selected mealId userId m).
Qed.

End DeleteFacts.

(** X16.  After a [DELETE /:id] that answered 204 the meal is gone for its
    owner: [GET /:id] sends an absent meal, and a second [DELETE /:id], or
    a [PUT /:id] with any body, fails with [NotFound]. *)
Theorem deleted_meal_is_gone (h : Host) (w : World) (userId mealId t : string)
    (body : Body) :
  let ask r world :=
    mealsRoutes h {| cookies_userId := Some userId; route := r;
                     db_now := t |} world in
  result (fst (ask (DeleteMeal mealId) w)) = Sent 204 NoPayload ->
  let after := snd (ask (DeleteMeal mealId) w) in
  ask (GetMeal mealId) after = (send 200 (MealPayload None), after) /\
  ask (DeleteMeal mealId) after = (fail NotFound, after) /\
  ask (PutMeal mealId body) after = (fail NotFound, after).
Proof.
  intros ask Hok after.
  destruct (DeleteFacts.delete_succeeded h w userId mealId t Hok)
    as [Hid [_ Hafter]].
  unfold after, ask. rewrite Hafter.
  unfold mealsRoutes, checkUserIdExists, get_meal, put_meal, delete_meal;
    cbn [route cookies_userId].
  rewrite (HandlerFacts.params_ok mealId Hid), DeleteFacts.find_meal_deleted.
  now repeat split.
Qed.

Lemma deleted_meal_is_gone_witness :
  let after :=
    snd (Examples.ask (DeleteMeal (id Examples.lunch_row)) Examples.world) in
  Examples.ask (GetMeal (id Examples.lunch_row)) after
  = (send 200 (MealPayload None), after) /\
  Examples.ask (DeleteMeal (id Examples.lunch_row)) after
  = (fail NotFound, after) /\
  Examples.ask (PutMeal (id Examples.lunch_row) Examples.dinner) after
  = (fail NotFound, after).
Proof.
  apply (deleted_meal_is_gone UTCHost.host Examples.world Examples.caller
           (id Examples.lunch_row) "2025-01-08 09:00:00" Examples.dinner).
  reflexivity.
Defined.

(** X17.  What a [DELETE /:id] that answered 204 removes: of the caller's
    rows, those of that id and no other, the rest staying in their order;
    at least one row, so the table is shorter; and no identifier is
    drawn. *)
Theorem delete_removes_that_meal_only (h : Host) (w : World)
    (userId mealId t : string) :
  let served :=
    mealsRoutes h {| cookies_userId := Some userId;
                     route := DeleteMeal mealId; db_now := t |} w in
  result (fst served) = Sent 204 NoPayload ->
  Knex.where_user userId (meals (snd served))
  = filter (fun m => negb (String.eqb (id m) mealId))
           (Knex.where_user userId (meals w)) /\
  List.length (meals (snd served)) < List.length (meals w) /\
  draws (snd served) = draws w.
Proof.
  intros served Hok.
  destruct (DeleteFacts.delete_succeeded h w userId mealId t Hok)
    as [_ [[m Hfound] Hafter]].
  unfold served. rewrite Hafter. cbn [meals draws].
  split; [apply StoreFacts.own_rows_deleted|]. split; [|reflexivity].
  apply UpdateFacts.find_meal_found in Hfound as [Hin [Hi Hu]].
  apply (UpdateFacts.filter_shorter _ _ m Hin).
  assert (Hsel : Knex.selected mealId userId m = true).
  { now apply HandlerFacts.selected_true. }
  now rewrite Hsel.
Qed.

Lemma delete_removes_that_meal_only_witness :
  let served :=
    Examples.ask (DeleteMeal (id Examples.lunch_row)) Examples.world in
  Knex.where_user Examples.caller (meals (snd served))
  = [Examples.breakfast_row] /\
  List.length (meals (snd served)) < 3 /\
  draws (snd served) = 5.
Proof.
  apply (delete_removes_that_meal_only UTCHost.host Examples.world
           Examples.caller (id Examples.lunch_row) "2025-01-08 09:00:00").
  reflexivity.
Defined.

Module InvariantFacts.


End InvariantFacts.





(** X20.  Create, then delete.  When the id drawn for a new meal is new to
    the table, a [DELETE /:id] of that id by the same client, with the
    token it holds once it has the reply to its [POST /], answers 204 and
    puts the table back exactly as it was before the [POST /]; only the
    count of identifiers drawn has moved, by two for a client that was
    given its token and by one for a client that had it. *)
Theorem delete_undoes_post (h : Host) (w : World) (jar : option string)
    (t t' : string) (body : Body) (b : createMealBody) :
  mints_uuids h ->
  createMealBodySchema h body = Some b ->
  let posted :=
    mealsRoutes h {| cookies_userId := jar; route := PostMeal body;
                     db_now := t |} w in
  let mealId :=
    randomUUID_at h (if falsy jar then S (draws w) else draws w) in
  (forall m, In m (meals w) -> id m <> mealId) ->
  exists userId,
    jar_after jar (fst posted) = Some userId /\
    mealsRoutes h {| cookies_userId := Some userId;
                     route := DeleteMeal mealId; db_now := t' |} (snd posted)
    = (send 204 NoPayload,
       {| meals := meals w;
          draws := if falsy jar then 2 + draws w else 1 + draws w |}).
Proof.
  intros Hh Hb posted mealId Hfresh. unfold posted.
  rewrite (CreateFacts.post_meal_row h w jar body b t Hb). cbn [fst snd].
  rewrite CreateFacts.owner_after_post. subst mealId.
  assert (Hdelete : forall owner mealId row n,
            Zod.uuid mealId = true ->
            (forall m, In m (meals w) -> id m <> mealId) ->
            id row = mealId -> user_id row = owner ->
            mealsRoutes h {| cookies_userId := Some owner;
                             route := DeleteMeal mealId; db_now := t' |}
              {| meals := meals w ++ [row]; draws := n |}
            = (send 204 NoPayload, {| meals := meals w; draws := n |})).
  { intros owner mealId row n Hid Hnew Hrowid Howner.
    assert (Hrow : Knex.selected mealId owner row = true).
    { now apply HandlerFacts.selected_true. }
    assert (Hold : forall m, In m (meals w) ->
                     Knex.selected mealId owner m = false).
    { intros m Hin. apply HandlerFacts.selected_false. intros E.
      now destruct (Hnew m Hin). }
    unfold mealsRoutes, checkUserIdExists, delete_meal;
      cbn [route cookies_userId].
    rewrite (HandlerFacts.params_ok mealId Hid).
    unfold find_meal, Knex.where_id_user, Knex.del; cbn [meals draws].
    rewrite !filter_app, (StoreFacts.filter_nothing _ _ Hold).
    cbn [filter app]. rewrite Hrow. cbn [Knex.first hd_error negb].
    rewrite StoreFacts.filter_everything, app_nil_r; [reflexivity|].
    intros m Hin. now rewrite (Hold m Hin). }
  destruct (falsy jar); eexists; (split; [reflexivity|]);
    apply Hdelete; try reflexivity; try apply Hh; exact Hfresh.
Qed.

Lemma delete_undoes_post_witness :
  (exists userId,
     jar_after (Some Examples.caller)
       (fst (Examples.ask (PostMeal Examples.dinner) Examples.world))
     = Some userId /\
     mealsRoutes UTCHost.host
       {| cookies_userId := Some userId;
          route := DeleteMeal (UTCHost.uuid_of 5);
          db_now := "2025-01-08 10:00:00" |}
       (snd (Examples.ask (PostMeal Examples.dinner) Examples.world))
     = (send 204 NoPayload,
        {| meals := meals Examples.world; draws := 6 |})) /\
  (exists userId,
     jar_after None
       (fst (mealsRoutes UTCHost.host
               {| cookies_userId := None; route := PostMeal Examples.dinner;
                  db_now := "2025-01-08 09:00:00" |} Examples.world))
     = Some userId /\
     mealsRoutes UTCHost.host
       {| cookies_userId := Some userId;
          route := DeleteMeal (UTCHost.uuid_of 6);
          db_now := "2025-01-08 10:00:00" |}
       (snd (mealsRoutes UTCHost.host
               {| cookies_userId := None; route := PostMeal Examples.dinner;
                  db_now := "2025-01-08 09:00:00" |} Examples.world))
     = (send 204 NoPayload,
        {| meals := meals Examples.world; draws := 7 |})).
Proof.
  split.
  - apply (delete_undoes_post UTCHost.host Examples.world
             (Some Examples.caller)
             "2025-01-08 09:00:00" "2025-01-08 10:00:00" Examples.dinner
             {| create_name := "dinner"; create_description := None;
                create_dateTime := Examples.jan07; create_onDiet := true |}).
    + exact HandlerFacts.utc_host_mints_uuids.
    + reflexivity.
    + intros m [<- | [<- | [<- | []]]]; discriminate.
  - apply (delete_undoes_post UTCHost.host Examples.world None
             "2025-01-08 09:00:00" "2025-01-08 10:00:00" Examples.dinner
             {| create_name := "dinner"; create_description := None;
                create_dateTime := Examples.jan07; create_onDiet := true |}).
    + exact HandlerFacts.utc_host_mints_uuids.
    + reflexivity.
    + intros m [<- | [<- | [<- | []]]]; discriminate.
Defined.

(** X21.  No client can change what another client is answered.  Whatever
    a client with its own token asks for, one request after the other, the
    rows of a caller with a different token are afterwards what they were,
    in the same order, and every route gives that caller the same reply as
    before. *)
Theorem other_sessions_do_not_show (h : Host) (w : World)
    (userId other t : string) (r : Route) (rs : list (Route * string)) :
  userId <> "" -> other <> "" -> userId <> other ->
  let after := snd (session h (Some other) w rs) in
  let serve world :=
    mealsRoutes h {| cookies_userId := Some userId; route := r;
                     db_now := t |} world in
  Knex.where_user userId (meals after) = Knex.where_user userId (meals w) /\
  fst (serve after) = fst (serve w).
Proof.
  intros Hu Ho Hne after serve.
  assert (Hown : Knex.where_user userId (meals after)
                 = Knex.where_user userId (meals w)).
  { rewrite <- (StoreFacts.own_rows_are_foreign userId other (meals after) Hne).
    unfold after. rewrite (StoreFacts.session_foreign_rows h other rs Ho w).
    now apply StoreFacts.own_rows_are_foreign. }
  split; [exact Hown|].
  now apply (StoreFacts.serve_own_rows h userId t r after w Hu Hown).
Qed.

Lemma other_sessions_do_not_show_witness :
  let after :=
    snd (session UTCHost.host (Some (UTCHost.uuid_of 3)) Examples.world
           [(PostMeal Examples.lunch, "2025-01-08 08:00:00");
            (DeleteMeal (id Examples.lunch_row), "2025-01-08 08:01:00");
            (PutMeal (id Examples.dinner_row)
                     (Object [("onDiet", JBool false)]),
             "2025-01-08 08:02:00")]) in
  Knex.where_user Examples.caller (meals after)
  = [Examples.lunch_row; Examples.breakfast_row] /\
  fst (Examples.ask GetMetrics after)
  = fst (Examples.ask GetMetrics Examples.world).
Proof.
  apply (other_sessions_do_not_show UTCHost.host Examples.world
           Examples.caller (UTCHost.uuid_of 3) "2025-01-08 09:00:00"
           GetMetrics
           [(PostMeal Examples.lunch, "2025-01-08 08:00:00");
            (DeleteMeal (id Examples.lunch_row), "2025-01-08 08:01:00");
            (PutMeal (id Examples.dinner_row)
                     (Object [("onDiet", JBool false)]),
             "2025-01-08 08:02:00")]); discriminate.
Defined.

(** X22.  [GET /:id] never discloses a meal of somebody else: a meal it
    sends is a row of the table with the id asked for, which is well
    formed, and with the caller as its owner. *)
Theorem get_meal_sends_own_meal_only (h : Host) (w : World)
    (userId mealId t : string) (status : nat) (m : Meal) :
  result (fst (mealsRoutes h {| cookies_userId := Some userId;
                                route := GetMeal mealId; db_now := t |} w))
  = Sent status (MealPayload (Some m)) ->
  In m (meals w) /\ id m = mealId /\ user_id m = userId /\
  Zod.uuid mealId = true.
Proof.
  unfold mealsRoutes, checkUserIdExists, get_meal, getMealParamsSchema;
    cbn [route cookies_userId].
  destruct (Zod.uuid mealId); [|discriminate]. cbn [fst result send].
  intros [= _ Hfind].
  apply UpdateFacts.find_meal_found in Hfind as [Hin [Hi Hu]].
  now repeat split.
Qed.

Lemma get_meal_sends_own_meal_only_witness :
  In Examples.lunch_row (meals Examples.world) /\
  id Examples.lunch_row = UTCHost.uuid_of 1 /\
  user_id Examples.lunch_row = Examples.caller /\
  Zod.uuid (UTCHost.uuid_of 1) = true.
Proof.
  apply (get_meal_sends_own_meal_only UTCHost.host Examples.world
           Examples.caller (UTCHost.uuid_of 1) "2025-01-08 09:00:00" 200
           Examples.lunch_row).
  reflexivity.
Defined.
